(** * lm_eval/base.py: request model, content addressing and the caching executor

    A shallow embedding of the caching layer of [lm_eval/base.py]:
    [hash_args], [CachingLM.__getattr__], [Request], [RequestFactory] and the
    registry [req_ret_lens], together with the properties of the
    specification that concern them.

    Conventions of the embedding.
    - A Python [str] is a [string] holding its UTF-8 code units, so that
      [str.encode()] is the passage from [string] to [list byte]. The
      character U+0000 is the only one whose encoding contains the byte 0.
    - A Python [int] is a [Z]; [str] of an [int] is its decimal form.
    - [hashlib.sha256] is the function of FIPS 180-4, written out below.
    - The [SqliteDict] is a finite map from [string] keys to Python values.
    - An exception is a value of [exn]; a computation that may raise
      returns a [result]. *)

From Stdlib Require Import ZArith Lia List Ascii String Sorted.
From Stdlib.Strings Require Import Byte.
From stdpp Require Import base option list gmap strings pretty.

Local Open Scope Z_scope.

(** ** SHA-256 (FIPS 180-4), as called through [hashlib.sha256] *)

Module SHA256.

Definition wrap (x : Z) : Z := Z.land x 4294967295.

Definition add32 (x y : Z) : Z := wrap (x + y).

Definition rotr (n x : Z) : Z :=
  Z.lor (Z.shiftr x n) (wrap (Z.shiftl x (32 - n))).

Definition ch (x y z : Z) : Z :=
  Z.lxor (Z.land x y) (Z.land (Z.lxor x 4294967295) z).

Definition maj (x y z : Z) : Z :=
  Z.lxor (Z.lxor (Z.land x y) (Z.land x z)) (Z.land y z).

Definition bsig0 (x : Z) : Z :=
  Z.lxor (Z.lxor (rotr 2 x) (rotr 13 x)) (rotr 22 x).

Definition bsig1 (x : Z) : Z :=
  Z.lxor (Z.lxor (rotr 6 x) (rotr 11 x)) (rotr 25 x).

Definition ssig0 (x : Z) : Z :=
  Z.lxor (Z.lxor (rotr 7 x) (rotr 18 x)) (Z.shiftr x 3).

Definition ssig1 (x : Z) : Z :=
  Z.lxor (Z.lxor (rotr 17 x) (rotr 19 x)) (Z.shiftr x 10).

(** The constants are the leading 32 fractional bits of the square and
    cube roots of the first primes; they are computed here from that
    definition. *)
Definition primes : list Z :=
  [2; 3; 5; 7; 11; 13; 17; 19; 23; 29; 31; 37; 41; 43; 47; 53;
   59; 61; 67; 71; 73; 79; 83; 89; 97; 101; 103; 107; 109; 113; 127; 131;
   137; 139; 149; 151; 157; 163; 167; 173; 179; 181; 191; 193; 197; 199;
   211; 223; 227; 229; 233; 239; 241; 251; 257; 263; 269; 271; 277; 281;
   283; 293; 307; 311].

(** Integer cube root by bisection: the greatest [r] in [[lo, hi)] with
    [r^3 <= n], given [lo^3 <= n < hi^3]. *)
Fixpoint cbrt_between (fuel : nat) (n lo hi : Z) : Z :=
  match fuel with
  | O => lo
  | S fuel' =>
      if hi - lo <=? 1 then lo
      else
        let mid := (lo + hi) / 2 in
        if mid * mid * mid <=? n
        then cbrt_between fuel' n mid hi
        else cbrt_between fuel' n lo mid
  end.

Definition cbrt (n : Z) : Z := cbrt_between 64 n 0 (2 ^ 40).

Definition round_constants : list Z :=
  Eval vm_compute in map (fun p => wrap (cbrt (p * 2 ^ 96))) primes.

Definition initial_hash : list Z :=
  Eval vm_compute in map (fun p => wrap (Z.sqrt (p * 2 ^ 64))) (firstn 8 primes).

(** Big-endian bytes of a word of [n] bytes. *)
Fixpoint be_bytes (n : nat) (x : Z) : list Z :=
  match n with
  | O => []
  | S n' => Z.land (Z.shiftr x (8 * Z.of_nat n')) 255 :: be_bytes n' x
  end.

Definition be_word (bs : list Z) : Z :=
  fold_left (fun acc b => Z.lor (Z.shiftl acc 8) b) bs 0.

(** Padding: a 1 bit, zero bits up to 56 mod 64 bytes, and the bit length
    of the message on 8 bytes. *)
Definition pad (msg : list Z) : list Z :=
  let len := Z.of_nat (length msg) in
  let zeros := Z.to_nat ((55 - len) mod 64) in
  msg ++ 128 :: replicate zeros 0 ++ be_bytes 8 (8 * len).

Fixpoint words (fuel : nat) (bs : list Z) : list Z :=
  match fuel, bs with
  | S fuel', b0 :: b1 :: b2 :: b3 :: bs' =>
      be_word [b0; b1; b2; b3] :: words fuel' bs'
  | _, _ => []
  end.

Fixpoint chunks {A} (fuel : nat) (n : nat) (l : list A) : list (list A) :=
  match fuel, l with
  | S fuel', _ :: _ => take n l :: chunks fuel' n (drop n l)
  | _, _ => []
  end.

(** The message schedule, newest word first while it is built. *)
Fixpoint schedule_rev (n : nat) (w : list Z) : list Z :=
  match n with
  | O => w
  | S n' =>
      let w2 := nth 1 w 0 in
      let w7 := nth 6 w 0 in
      let w15 := nth 14 w 0 in
      let w16 := nth 15 w 0 in
      schedule_rev n'
        (add32 (add32 (add32 (ssig1 w2) w7) (ssig0 w15)) w16 :: w)
  end.

Definition schedule (block : list Z) : list Z :=
  rev (schedule_rev 48 (rev block)).

Record state := State { sa : Z; sb : Z; sc : Z; sd : Z;
                        se : Z; sf : Z; sg : Z; sh : Z }.

Definition round (s : state) (kw : Z * Z) : state :=
  let '(k, w) := kw in
  let t1 := add32 (add32 (add32 (add32 (sh s) (bsig1 (se s)))
                                (ch (se s) (sf s) (sg s))) k) w in
  let t2 := add32 (bsig0 (sa s)) (maj (sa s) (sb s) (sc s)) in
  State (add32 t1 t2) (sa s) (sb s) (sc s) (add32 (sd s) t1) (se s) (sf s) (sg s).

Definition compress (h : state) (block : list Z) : state :=
  let s := fold_left round (combine round_constants (schedule block)) h in
  State (add32 (sa h) (sa s)) (add32 (sb h) (sb s))
        (add32 (sc h) (sc s)) (add32 (sd h) (sd s))
        (add32 (se h) (se s)) (add32 (sf h) (sf s))
        (add32 (sg h) (sg s)) (add32 (sh h) (sh s)).

Definition init : state :=
  State (nth 0 initial_hash 0) (nth 1 initial_hash 0)
        (nth 2 initial_hash 0) (nth 3 initial_hash 0)
        (nth 4 initial_hash 0) (nth 5 initial_hash 0)
        (nth 6 initial_hash 0) (nth 7 initial_hash 0).

Definition digest_words (msg : list Z) : list Z :=
  let padded := pad msg in
  let ws := words (length padded) padded in
  let s := fold_left compress (chunks (length ws) 16 ws) init in
  [sa s; sb s; sc s; sd s; se s; sf s; sg s; sh s].

Definition hex_digit (d : Z) : ascii :=
  ascii_of_nat (Z.to_nat (if d <? 10 then 48 + d else 87 + d)).

Definition hex_byte (b : Z) : string :=
  String (hex_digit (Z.shiftr b 4)) (String (hex_digit (Z.land b 15)) EmptyString).

(** [hashlib.sha256(dat).hexdigest()] *)
Definition hexdigest (dat : list byte) : string :=
  let msg := map (fun b => Z.of_N (Byte.to_N b)) dat in
  foldr (fun b acc => append (hex_byte b) acc) EmptyString
        (concat (map (be_bytes 4) (digest_words msg))).

End SHA256.


Local Open Scope string_scope.
Local Open Scope list_scope.
Local Open Scope stdpp_scope.

(** ** Python values, exceptions and results *)

(** The values that travel through the caching layer. A [float] is kept as
    its binary64 bit pattern: the layer never looks inside a result. *)
#[warnings="-register-all"]
Inductive pyobj : Type :=
| PyNone
| PyBool (b : bool)
| PyInt (z : Z)
| PyFloat (bits : Z)
| PyStr (s : string)
| PyTuple (items : list pyobj).

Inductive exn : Type :=
| AssertionError
| IndexError
| KeyError (key : string)
| NotImplementedError (msg : string)
| BackendError (name : string).

Inductive result (A : Type) : Type :=
| Ok (a : A)
| Raise (e : exn).

Arguments Ok {A} a.
Arguments Raise {A} e.

(** [v is None] *)
Definition is_none (v : pyobj) : bool :=
  match v with PyNone => true | _ => false end.

(** [isinstance(v, str)] *)
Definition isinstance_str (v : pyobj) : bool :=
  match v with PyStr _ => true | _ => false end.

(** [isinstance(v, int)]; [bool] is a subclass of [int]. *)
Definition isinstance_int (v : pyobj) : bool :=
  match v with PyInt _ | PyBool _ => true | _ => false end.

(** [str(v)]. Only strings and integers are rendered: [hash_args] asserts
    that its argument is one before it calls [str]. *)
Definition str (v : pyobj) : string :=
  match v with
  | PyStr s => s
  | PyInt z => pretty z
  | PyBool true => "True"
  | PyBool false => "False"
  | PyNone => "None"
  | PyFloat _ | PyTuple _ => ""
  end.

(** [s.encode()] *)
Definition encode (s : string) : list byte := list_byte_of_string s.

(** ** [hash_args] *)

(** The loop of [hash_args]: [dat] grows by the encoded argument and a NUL
    byte; the assertion fails on anything that is not a [str] or an [int]. *)
Fixpoint hash_args_dat (args : list pyobj) (dat : list byte) : result (list byte) :=
  match args with
  | [] => Ok dat
  | arg :: args' =>
      if isinstance_str arg || isinstance_int arg
      then hash_args_dat args' ((dat ++ encode (str arg)) ++ [x00])
      else Raise AssertionError
  end.

Definition hash_args (args : list pyobj) : result string :=
  match hash_args_dat args [] with
  | Ok dat => Ok (SHA256.hexdigest dat)
  | Raise e => Raise e
  end.

(** ** The registry [req_ret_lens] *)

Definition req_ret_lens : gmap string Z := {[ "loglikelihood" := 2%Z ]}.

(** ** [class CachingLM] *)

Module CachingLM.

(** A request handed to the executor is the tuple of its arguments. *)
Abbreviation req := (list pyobj) (only parsing).

(** The wrapped model: [getattr(self.lm, attr)(reqs)] runs in the state [B]
    of the model object and returns a list of results or raises. *)
Definition backend (B : Type) : Type :=
  string → list req → B → result (list pyobj) * B.

(** The executor object: the model [self.lm], the store [self.dbdict], and
    the record of the calls made to the model (in order). *)
Record state (B : Type) : Type := State {
  lm : B;
  dbdict : gmap string pyobj;
  lm_calls : list (string * list req)
}.

Arguments State {B} lm dbdict lm_calls.
Arguments lm {B} s.
Arguments dbdict {B} s.
Arguments lm_calls {B} s.

(** Computations on the executor: the state survives an exception. *)
Definition M (B A : Type) : Type := state B → result A * state B.

Definition ret {B A} (a : A) : M B A := fun w => (Ok a, w).

Definition raise {B A} (e : exn) : M B A := fun w => (Raise e, w).

Definition bind {B A C} (m : M B A) (k : A → M B C) : M B C :=
  fun w =>
    match m w with
    | (Ok a, w') => k a w'
    | (Raise e, w') => (Raise e, w')
    end.

Definition lift {B A} (r : result A) : M B A := fun w => (r, w).

Notation "x <- c1 ;; c2" := (bind c1 (fun x => c2))
  (at level 100, c1 at next level, right associativity).

(** [assert c] *)
Definition assert {B} (c : bool) : M B unit :=
  if c then ret tt else raise AssertionError.

(** [hsh in self.dbdict] *)
Definition db_contains {B} (hsh : string) : M B bool :=
  fun w => (Ok (bool_decide (is_Some (dbdict w !! hsh))), w).

(** [self.dbdict[hsh]] *)
Definition db_get {B} (hsh : string) : M B pyobj :=
  fun w =>
    match dbdict w !! hsh with
    | Some ob => (Ok ob, w)
    | None => (Raise (KeyError hsh), w)
    end.

(** [self.dbdict[hsh] = r] *)
Definition db_set {B} (hsh : string) (r : pyobj) : M B unit :=
  fun w => (Ok tt, State (lm w) (<[hsh := r]> (dbdict w)) (lm_calls w)).

(** [getattr(self.lm, attr)(reqs)] *)
Definition lm_call {B} (model : backend B) (attr : string) (reqs : list req)
  : M B (list pyobj) :=
  fun w =>
    let '(r, b) := model attr reqs (lm w) in
    (r, State b (dbdict w) (lm_calls w ++ [(attr, reqs)])).

(** [attr + '_' + hash_args(req)] *)
Definition cache_key {B} (attr : string) (rq : req) : M B string :=
  h <- lift (hash_args rq) ;;
  ret (attr +:+ "_" +:+ h).

(** The first loop of [fn]: figure out which requests are cached. *)
Fixpoint lookup_loop {B} (attr : string) (requests : list req)
    (res : list pyobj) (remaining_reqs : list req)
  : M B (list pyobj * list req) :=
  match requests with
  | [] => ret (res, remaining_reqs)
  | rq :: requests' =>
      hsh <- cache_key attr rq ;;
      present <- db_contains hsh ;;
      if (present : bool) then
        ob <- db_get hsh ;;
        _ <- assert (negb (is_none ob)) ;;
        lookup_loop attr requests' (res ++ [ob]) remaining_reqs
      else
        lookup_loop attr requests' (res ++ [PyNone]) (remaining_reqs ++ [rq])
  end.

(** [while res[resptr] is not None: resptr += 1], reading [res] from
    [resptr] on: [tail] is [res[resptr:]]. Running off the end of the list
    is an [IndexError]. *)
Fixpoint advance (tail : list pyobj) (resptr : nat) : result nat :=
  match tail with
  | [] => Raise IndexError
  | v :: tail' => if is_none v then Ok resptr else advance tail' (S resptr)
  end.

(** The second loop of [fn], over [zip(remaining_reqs, rem_res)]. *)
Fixpoint store_loop {B} (attr : string) (pairs : list (req * pyobj))
    (res : list pyobj) (resptr : nat) : M B (list pyobj) :=
  match pairs with
  | [] => ret res
  | (rq, r) :: pairs' =>
      resptr' <- lift (advance (drop resptr res) resptr) ;;
      let res' := <[resptr' := r]> res in
      hsh <- cache_key attr rq ;;
      _ <- db_set hsh r ;;
      store_loop attr pairs' res' resptr'
  end.

(** [fn(requests)], the function that [__getattr__(attr)] returns. *)
Definition fn {B} (model : backend B) (attr : string) (requests : list req)
  : M B (list pyobj) :=
  lr <- lookup_loop attr requests [] [] ;;
  rem_res <- lm_call model attr (snd lr) ;;
  store_loop attr (zip (snd lr) rem_res) (fst lr) 0.

Definition __getattr__ {B} (model : backend B) (attr : string)
  : list req → M B (list pyobj) :=
  fn model attr.

End CachingLM.

(** ** [class Request] and [class RequestFactory] *)

(** A [Request] object. The class defines neither [__eq__] nor [__hash__]:
    an instance is told apart by its identity [oid], which the allocator
    hands out. *)
Record Request : Type := mkRequest {
  oid : nat;
  type : string;
  args : list pyobj;
  index : option Z
}.

(** Object construction runs in the allocator: the next free identity. *)
Definition Alloc (A : Type) : Type := nat → result A * nat.

Module RequestClass.

(** [Request(type, args, index)]: [__init__] raises on a type that the
    registry does not know, and no object is returned. *)
Definition __init__ (ty : string) (a : list pyobj) (i : option Z) : Alloc Request :=
  fun next =>
    match req_ret_lens !! ty with
    | None =>
        (Raise (NotImplementedError
                  ("The request type " +:+ ty +:+ " is not implemented!")),
         S next)
    | Some _ => (Ok (mkRequest next ty a i), S next)
    end.

(** [self[i]] *)
Definition __getitem__ (self : Request) (i : Z) : Alloc Request :=
  __init__ (type self) (args self) (Some i).

(** [list(iter(self))]: one request per result component. *)
Fixpoint iter_from (self : Request) (n : nat) (i : Z) : Alloc (list Request) :=
  match n with
  | O => fun next => (Ok [], next)
  | S n' => fun next =>
      match __init__ (type self) (args self) (Some i) next with
      | (Ok r, next') =>
          match iter_from self n' (i + 1)%Z next' with
          | (Ok rs, next'') => (Ok (r :: rs), next'')
          | (Raise e, next'') => (Raise e, next'')
          end
      | (Raise e, next') => (Raise e, next')
      end
  end.

Definition __iter__ (self : Request) : Alloc (list Request) :=
  fun next =>
    match req_ret_lens !! type self with
    | Some n => iter_from self (Z.to_nat n) 0%Z next
    | None => (Raise (KeyError (type self)), next)
    end.

(** [a == b] and [hash(a)] as [object] defines them: by identity. *)
Definition __eq__ (a b : Request) : bool := Nat.eqb (oid a) (oid b).

Definition __hash__ (a : Request) : nat := oid a.

End RequestClass.

Module RequestFactory.

(** [RequestFactory().attr( *args )] *)
Definition __getattr__ (attr : string) (a : list pyobj) : Alloc Request :=
  RequestClass.__init__ attr a None.

End RequestFactory.

(** ** Builtins used by the tasks and the metrics *)

(** [ValueError], as [max], [numpy.argmax] and [random.sample] raise it: an
    exception of library code, kept by its name. *)
Definition ValueError : exn := BackendError "ValueError".

(** [l[i]] on a list: a negative index counts from the end. *)
Definition list_getitem {A} (l : list A) (i : Z) : result A :=
  let n := Z.of_nat (length l) in
  let j := if (i <? 0)%Z then (i + n)%Z else i in
  if ((0 <=? j)%Z && (j <? n)%Z)
  then match l !! Z.to_nat j with
       | Some x => Ok x
       | None => Raise IndexError
       end
  else Raise IndexError.

(** [max(l)], with [gtb x y] for [x > y]: an item replaces the current
    maximum when it is greater, so the first of the greatest items wins. *)
Fixpoint max_from {T} (gtb : T → T → bool) (best : T) (l : list T) : T :=
  match l with
  | [] => best
  | x :: l' => max_from gtb (if gtb x best then x else best) l'
  end.

Definition py_max {T} (gtb : T → T → bool) (l : list T) : result T :=
  match l with
  | [] => Raise ValueError
  | x :: l' => Ok (max_from gtb x l')
  end.

(** [numpy.argmax(l)] on values without NaN: the index of the first of the
    greatest items. [i] is the index of the head of [l]. *)
Fixpoint argmax_from {T} (gtb : T → T → bool) (best : T) (besti i : nat)
    (l : list T) : nat :=
  match l with
  | [] => besti
  | x :: l' =>
      if gtb x best then argmax_from gtb x i (S i) l'
      else argmax_from gtb best besti (S i) l'
  end.

Definition np_argmax {T} (gtb : T → T → bool) (l : list T) : result nat :=
  match l with
  | [] => Raise ValueError
  | x :: l' => Ok (argmax_from gtb x 0 1 l')
  end.

(** The line feed, and the floats [1.] and [0.] by their bits. *)
Definition nl : string := String (ascii_of_nat 10) EmptyString.

Definition float_one : pyobj := PyFloat 4607182418800017408.

Definition float_zero : pyobj := PyFloat 0.

(** ** [class Task] *)

Module Task.

(** The methods that a task defines, over documents [D]: [training_docs]
    gives what its n-th call yields, [sample] is [random.sample] on the
    state [R] of the generator. *)
Record methods (D R : Type) : Type := Methods {
  training_docs : nat → list D;
  doc_to_text : D → string;
  doc_to_target : D → string;
  fewshot_description : string;
  sample : R → list D → Z → result (list D) * R
}.

Arguments Methods {D R}.
Arguments training_docs {D R} m n.
Arguments doc_to_text {D R} m d.
Arguments doc_to_target {D R} m d.
Arguments fewshot_description {D R} m.
Arguments sample {D R} m g pop k.

(** The task object: [self._training_docs], the number of calls made to
    [training_docs], and the random generator. *)
Record state (D R : Type) : Type := State {
  _training_docs : option (list D);
  training_docs_calls : nat;
  rng : R
}.

Arguments State {D R}.
Arguments _training_docs {D R} s.
Arguments training_docs_calls {D R} s.
Arguments rng {D R} s.

(** [__init__]: [self._training_docs = None]. *)
Definition __init__ {D R} (g : R) : state D R := State None 0 g.

Definition fewshot_examples {D R} (m : methods D R) (k : Z)
  : state D R → result (list D) * state D R :=
  fun s =>
    let s1 :=
      match _training_docs s with
      | None =>
          State (Some (training_docs m (training_docs_calls s)))
                (S (training_docs_calls s)) (rng s)
      | Some _ => s
      end in
    let docs := default [] (_training_docs s1) in
    let '(r, g) := sample m (rng s1) docs k in
    (r, State (_training_docs s1) (training_docs_calls s1) g).

Definition fewshot_context {D R} (m : methods D R) (doc : D) (num_fewshot : Z)
    (provide_description : bool) : state D R → result string * state D R :=
  fun s =>
    let raw_description := fewshot_description m in
    let description :=
      if provide_description && negb (String.eqb raw_description "")
      then raw_description +:+ nl +:+ "===" +:+ nl +:+ nl
      else "" in
    let example := doc_to_text m doc in
    if (num_fewshot =? 0)%Z then
      (Ok (description +:+ "" +:+ example), s)
    else
      match fewshot_examples m num_fewshot s with
      | (Ok docs, s') =>
          let labeled_examples :=
            String.concat (nl +:+ nl)
              (map (fun d => doc_to_text m d +:+ doc_to_target m d) docs)
            +:+ nl +:+ nl in
          (Ok (description +:+ labeled_examples +:+ example), s')
      | (Raise e, s') => (Raise e, s')
      end.

End Task.

(** ** [class MultipleChoiceTask] *)

Module MultipleChoiceTask.

(** A document: [doc['choices']], a list of strings, and [doc['gold']]. *)
Record doc : Type := Doc {
  choices : list string;
  gold : Z
}.

Definition doc_to_target (d : doc) : result string :=
  match list_getitem (choices d) (gold d) with
  | Ok c => Ok (" " +:+ c)
  | Raise e => Raise e
  end.

(** [rf.loglikelihood(ctx, " {}".format(choice))[0]] for every choice. *)
Fixpoint construct_requests_from (ctx : string) (cs : list string)
  : Alloc (list Request) :=
  match cs with
  | [] => fun next => (Ok [], next)
  | choice :: cs' => fun next =>
      match RequestFactory.__getattr__ "loglikelihood"
              [PyStr ctx; PyStr (" " +:+ choice)] next with
      | (Ok r, next1) =>
          match RequestClass.__getitem__ r 0 next1 with
          | (Ok r0, next2) =>
              match construct_requests_from ctx cs' next2 with
              | (Ok lls, next3) => (Ok (r0 :: lls), next3)
              | (Raise e, next3) => (Raise e, next3)
              end
          | (Raise e, next2) => (Raise e, next2)
          end
      | (Raise e, next1) => (Raise e, next1)
      end
  end.

Definition construct_requests (d : doc) (ctx : string) : Alloc (list Request) :=
  construct_requests_from ctx (choices d).

(** [results] are the log-likelihoods, compared by [gtb]. *)
Definition process_results {T} (gtb : T → T → bool) (d : doc) (results : list T)
  : result (gmap string pyobj) :=
  match np_argmax gtb results with
  | Ok i =>
      let acc := if (Z.of_nat i =? gold d)%Z then float_one else float_zero in
      Ok {[ "acc" := acc ]}
  | Raise e => Raise e
  end.

Definition higher_is_better : gmap string bool := {[ "acc" := true ]}.

End MultipleChoiceTask.

(** ** The metrics *)

(** [arr[len(arr) // 2]] *)
Definition median {A} (arr : list A) : result A :=
  list_getitem arr (Z.of_nat (length arr) / 2).

Definition metric_max_over_ground_truths {P G T} (gtb : T → T → bool)
    (metric_fn : P → G → T) (prediction : P) (ground_truths : list G) : result T :=
  py_max gtb (map (metric_fn prediction) ground_truths).

(** A document of [acc_all]: [doc["idx"]["question"]] and [doc["label"]]. *)
Record question_doc : Type := QuestionDoc {
  question : Z;
  label : Z
}.

(** [question_scoring_dict], in the order in which its keys were inserted:
    a new question starts with the empty list, then the answer is
    appended. *)
Fixpoint scoring_append (d : list (Z * list bool)) (question_id : Z) (x : bool)
  : list (Z * list bool) :=
  match d with
  | [] => [(question_id, [x])]
  | (q, xs) :: d' =>
      if (q =? question_id)%Z then (q, xs ++ [x]) :: d'
      else (q, xs) :: scoring_append d' question_id x
  end.

(** [gold_label == pred] for an item [(pred, doc)]. *)
Definition answer_correct (item : bool * question_doc) : bool :=
  Bool.eqb (label (snd item) =? 1)%Z (fst item).

Definition question_scoring_dict (items : list (bool * question_doc))
  : list (Z * list bool) :=
  fold_left (fun d item => scoring_append d (question (snd item)) (answer_correct item))
            items [].

(** [acc_all(items)]; [np_mean] is [numpy.mean] on a list of integers. *)
Definition acc_all {F} (np_mean : list Z → F) (items : list (bool * question_doc))
  : result F :=
  match items with
  | [] => Raise IndexError
  | _ :: _ =>
      Ok (np_mean (map (fun kv => if forallb id (snd kv) then 1%Z else 0%Z)
                       (question_scoring_dict items)))
  end.

(** The answers given to one question, in the order of the items. *)
Definition answers_to (items : list (bool * question_doc)) (q : Z) : list bool :=
  map answer_correct (List.filter (fun item => (question (snd item) =? q)%Z) items).

(** ** Functions used to state the properties *)

(** What [hash_args] accepts. *)
Definition hashable (arg : pyobj) : bool :=
  isinstance_str arg || isinstance_int arg.

(** The bytes that [hash_args] feeds to SHA-256. *)
Fixpoint serialize (args : list pyobj) : list byte :=
  match args with
  | [] => []
  | arg :: args' => (encode (str arg) ++ [x00]) ++ serialize args'
  end.

(** The cache key of a request under an operation name. *)
Definition key (attr : string) (rq : list pyobj) : string :=
  attr +:+ "_" +:+ SHA256.hexdigest (serialize rq).

(** The output slot of a request after the first loop. *)
Definition slot (db : gmap string pyobj) (attr : string) (rq : list pyobj) : pyobj :=
  default PyNone (db !! key attr rq).

Definition is_miss (db : gmap string pyobj) (attr : string) (rq : list pyobj) : bool :=
  bool_decide (db !! key attr rq = None).

(** The misses of a batch, in the order of the batch. *)
Definition misses (db : gmap string pyobj) (attr : string)
    (requests : list (list pyobj)) : list (list pyobj) :=
  List.filter (is_miss db attr) requests.

Definition count_none (l : list pyobj) : nat :=
  length (List.filter is_none l).

Definition not_none (l : list pyobj) : list pyobj :=
  List.filter (fun v => negb (is_none v)) l.

(** Fill the [None] slots of [res], left to right, with [rs]. *)
Fixpoint fill (res rs : list pyobj) : list pyobj :=
  match res with
  | [] => []
  | v :: res' =>
      if is_none v then
        match rs with
        | [] => v :: res'
        | r :: rs' => r :: fill res' rs'
        end
      else v :: fill res' rs
  end.

(** The store after the writes of the second loop. *)
Definition write_all (attr : string) (pairs : list (list pyobj * pyobj))
    (db : gmap string pyobj) : gmap string pyobj :=
  foldl (fun d p => <[key attr (fst p) := snd p]> d) db pairs.

(** Every argument of every request is a [str] or an [int]. *)
Definition all_hashable (requests : list (list pyobj)) : Prop :=
  Forall (fun rq => forallb hashable rq = true) requests.

(** No request of the batch has [None] stored under its key. *)
Definition no_stored_none (db : gmap string pyobj) (attr : string)
    (requests : list (list pyobj)) : Prop :=
  Forall (fun rq => db !! key attr rq ≠ Some PyNone) requests.

(** No result is [None]. *)
Definition none_free (rs : list pyobj) : Prop :=
  Forall (fun r => is_none r = false) rs.

(** Order preservation: [out] has one result per request; a request whose
    key is in the store [db] gets the stored value, and a miss gets the
    result of the model at its rank among the misses. *)
Definition order_preserved (db : gmap string pyobj) (attr : string)
    (requests : list (list pyobj)) (rs out : list pyobj) : Prop :=
  length out = length requests
  ∧ ∀ i rq, requests !! i = Some rq →
      out !! i =
        match db !! key attr rq with
        | Some ob => Some ob
        | None => rs !! length (misses db attr (take i requests))
        end.

(** Some result [None] is followed, later in the list, by a result that
    is not [None]. *)
Definition none_then_result (rs : list pyobj) : Prop :=
  ∃ (p q : nat) (r : pyobj),
    (p < q)%nat ∧ rs !! p = Some PyNone ∧ rs !! q = Some r ∧ is_none r = false.

(** No NUL character in a string. *)
Fixpoint nul_free (s : string) : bool :=
  match s with
  | EmptyString => true
  | String a s' => negb (Ascii.eqb a Ascii.zero) && nul_free s'
  end.

(** An argument whose string form cannot contain a NUL character: only a
    [str] can. *)
Definition arg_nul_free (arg : pyobj) : bool :=
  match arg with PyStr s => nul_free s | _ => true end.

(** The string [a NUL b]. *)
Definition a_nul_b : string :=
  String "a"%char (String Ascii.zero (String "b"%char EmptyString)).

(** ** Model backends used in the examples *)

(** Answers every request with the same string and counts its calls. *)
Definition constant_model (r : pyobj) : CachingLM.backend nat :=
  fun _ reqs n => (Ok (map (fun _ => r) reqs), S n).

(** Answers with a fixed list, whatever the requests. *)
Definition scripted_model (rs : list pyobj) : CachingLM.backend nat :=
  fun _ _ n => (Ok rs, S n).

(** Raises on every call. *)
Definition failing_model (name : string) : CachingLM.backend nat :=
  fun _ _ n => (Raise (BackendError name), S n).

(** Raises on an empty batch, as a model that takes the longest request of
    the batch would; answers [r] to every request otherwise. *)
Definition nonempty_model (r : pyobj) : CachingLM.backend nat :=
  fun _ reqs n =>
    match reqs with
    | [] => (Raise (BackendError "ValueError"), S n)
    | _ => (Ok (map (fun _ => r) reqs), S n)
    end.

Definition fresh : CachingLM.state nat := CachingLM.State 0%nat ∅ [].


(** A task on strings whose sampler takes the first [k] documents and fails,
    as [random.sample] does, when [k] is negative or exceeds the
    population. *)
Definition echo_task : Task.methods string nat :=
  Task.Methods
    (fun n => if Nat.eqb n 0 then ["q1"; "q2"; "q3"] else [])
    (fun d => d +:+ "?")
    (fun d => " yes")
    "Answer."
    (fun g pop k =>
       if ((k <? 0)%Z || (Z.of_nat (length pop) <? k)%Z)
       then (Raise ValueError, S g)
       else (Ok (take (Z.to_nat k) pop), S g)).

(** A lowercase hexadecimal digit. *)
Definition is_hex_char (c : ascii) : bool :=
  let n := nat_of_ascii c in
  ((48 <=? n) && (n <=? 57) || (97 <=? n) && (n <=? 102))%nat.

Fixpoint all_chars (p : ascii → bool) (s : string) : bool :=
  match s with
  | EmptyString => true
  | String c s' => p c && all_chars p s'
  end.

(** A store that already holds the result of [("b",)] under
    [loglikelihood]. *)
Definition seeded : CachingLM.state nat :=
  CachingLM.State 0%nat {[ key "loglikelihood" [PyStr "b"] := PyStr "cached" ]} [].

(** A store that holds [None] under the key of [("a",)]. *)
Definition poisoned : CachingLM.state nat :=
  CachingLM.State 0%nat {[ key "loglikelihood" [PyStr "a"] := PyNone ]} [].

(** * Properties *)

(** ** SHA-256 test vectors *)

Example sha256_abc :
  SHA256.hexdigest (encode "abc")
  = "ba7816bf8f01cfea414140de5dae2223b00361a396177a9cb410ff61f20015ad".
Proof. vm_compute. reflexivity. Qed.

Example sha256_empty :
  SHA256.hexdigest []
  = "e3b0c44298fc1c149afbf4c8996fb92427ae41e4649b934ca495991b7852b855".
Proof. vm_compute. reflexivity. Qed.

Example sha256_two_blocks :
  SHA256.hexdigest (encode "abcdbcdecdefdefgefghfghighijhijkijkljklmklmnlmnomnopnopq")
  = "248d6a61d20638b8e5c026930c3e6039a33ce45964ff2167f6ecedd419db06c1".
Proof. vm_compute. reflexivity. Qed.

Example sha256_first_constants :
  take 2 SHA256.round_constants = [1116352408%Z; 1899447441%Z]
  ∧ take 1 SHA256.initial_hash = [1779033703%Z].
Proof. split; reflexivity. Qed.

(** ** [hash_args] *)

Import CachingLM.

Lemma hash_args_dat_ok args dat :
  forallb hashable args = true →
  hash_args_dat args dat = Ok (dat ++ serialize args).
Proof.
  revert dat. induction args as [|arg args IH]; intros dat H; simpl in *.
  - by rewrite app_nil_r.
  - apply andb_prop in H as [Ha Hs]. unfold hashable in Ha. rewrite Ha.
    rewrite IH by done. by rewrite <- !app_assoc.
Qed.

Lemma hash_args_dat_fail args dat :
  forallb hashable args = false →
  hash_args_dat args dat = Raise AssertionError.
Proof.
  revert dat. induction args as [|arg args IH]; intros dat H; simpl in *.
  - done.
  - unfold hashable in H.
    destruct (isinstance_str arg || isinstance_int arg); simpl in *; auto.
Qed.

Lemma hash_args_ok args :
  forallb hashable args = true →
  hash_args args = Ok (SHA256.hexdigest (serialize args)).
Proof. intros H. unfold hash_args. by rewrite hash_args_dat_ok. Qed.

Lemma hash_args_fail args :
  forallb hashable args = false → hash_args args = Raise AssertionError.
Proof. intros H. unfold hash_args. by rewrite hash_args_dat_fail. Qed.

(** *** The serialization *)

Lemma byte_of_ascii_inj (a b : ascii) : byte_of_ascii a = byte_of_ascii b → a = b.
Proof.
  intros H. by rewrite <- (ascii_of_byte_of_ascii a), H, ascii_of_byte_of_ascii.
Qed.

Lemma nul_free_cons (a : ascii) (s : string) :
  nul_free (String a s) = true → byte_of_ascii a ≠ x00 ∧ nul_free s = true.
Proof.
  cbn. intros [Ha Hs]%andb_prop. split; [|done].
  intros H. apply (byte_of_ascii_inj a Ascii.zero) in H. subst a. done.
Qed.

(** A NUL-free string followed by the terminator is read back without
    ambiguity. *)
Lemma encode_terminated_inj (s1 s2 : string) (r1 r2 : list byte) :
  nul_free s1 = true → nul_free s2 = true →
  encode s1 ++ x00 :: r1 = encode s2 ++ x00 :: r2 →
  s1 = s2 ∧ r1 = r2.
Proof.
  revert s2. induction s1 as [|a s1 IH]; intros [|b s2] H1 H2 H.
  - cbn in H. by injection H.
  - apply nul_free_cons in H2 as [Hb _]. cbn in H. injection H as H _. done.
  - apply nul_free_cons in H1 as [Ha _]. cbn in H. injection H as H _. done.
  - apply nul_free_cons in H1 as [_ H1]. apply nul_free_cons in H2 as [_ H2].
    cbn in H. injection H as Hab H. apply byte_of_ascii_inj in Hab as ->.
    destruct (IH s2 H1 H2) as [-> ->]; done.
Qed.

Lemma pretty_N_go_nul_free (x : N) (s : string) :
  nul_free s = true → nul_free (pretty_N_go x s) = true.
Proof.
  revert s. induction (N.lt_wf_0 x) as [x _ IH]; intros s Hs.
  destruct (decide (x = 0%N)) as [->|Hx].
  - by rewrite pretty_N_go_0.
  - rewrite pretty_N_go_step by lia. apply IH.
    + apply N.div_lt; lia.
    + cbn. rewrite Hs. unfold pretty_N_char. by repeat case_match.
Qed.

Lemma pretty_Z_nul_free (z : Z) : nul_free (pretty z) = true.
Proof.
  assert (∀ p : positive, nul_free (pretty p) = true) as Hp.
  { intros p. unfold pretty, pretty_positive, pretty, pretty_N.
    case_decide; [done|]. by apply pretty_N_go_nul_free. }
  destruct z as [|p|p]; [done|apply Hp|].
  unfold pretty, pretty_Z. cbn. apply Hp.
Qed.

Lemma str_nul_free (arg : pyobj) :
  hashable arg = true → arg_nul_free arg = true → nul_free (str arg) = true.
Proof.
  destruct arg as [|[]| | | |]; try done. intros _ _. apply pretty_Z_nul_free.
Qed.

(** On arguments whose string forms hold no NUL, the bytes determine the
    sequence of string forms. *)
Lemma serialize_inj (args1 args2 : list pyobj) :
  forallb hashable args1 = true → forallb hashable args2 = true →
  forallb arg_nul_free args1 = true → forallb arg_nul_free args2 = true →
  serialize args1 = serialize args2 →
  map str args1 = map str args2.
Proof.
  revert args2. induction args1 as [|a1 args1 IH]; intros [|a2 args2] Hh1 Hh2 Hn1 Hn2 H.
  - done.
  - cbn in H. destruct (encode (str a2)); discriminate.
  - cbn in H. destruct (encode (str a1)); discriminate.
  - cbn in *. apply andb_prop in Hh1 as [Ha1 Hh1]. apply andb_prop in Hh2 as [Ha2 Hh2].
    apply andb_prop in Hn1 as [Hna1 Hn1]. apply andb_prop in Hn2 as [Hna2 Hn2].
    rewrite <- !app_assoc in H. cbn in H.
    apply encode_terminated_inj in H as [-> H]; [|by apply str_nul_free..].
    f_equal. by apply IH.
Qed.

Lemma map_str_PyStr (l : list string) : map str (map PyStr l) = l.
Proof. induction l as [|x l IH]; [done|]. cbn. by rewrite IH. Qed.

(** C5 (amended). [hash_args] is a function of its arguments: on strings
    and integers it returns the SHA-256 digest of the terminated string
    forms, so equal tuples get equal digests. The NUL terminator separates
    the values as long as no string holds a NUL character: then equal bytes
    mean equal sequences of string forms, and two tuples of strings with
    the same bytes are the same tuple. The digests of [("10","5")] and
    [("1","05")] differ. *)
Theorem hash_args_addressing (args1 args2 : list pyobj) :
  forallb hashable args1 = true → forallb hashable args2 = true →
  forallb arg_nul_free args1 = true → forallb arg_nul_free args2 = true →
  hash_args args1 = Ok (SHA256.hexdigest (serialize args1))
  ∧ (args1 = args2 → hash_args args1 = hash_args args2)
  ∧ (serialize args1 = serialize args2 → map str args1 = map str args2)
  ∧ (∀ l1 l2 : list string,
       args1 = map PyStr l1 → args2 = map PyStr l2 →
       serialize args1 = serialize args2 → args1 = args2)
  ∧ hash_args [PyStr "10"; PyStr "5"] ≠ hash_args [PyStr "1"; PyStr "05"].
Proof.
  intros Hh1 Hh2 Hn1 Hn2. repeat split.
  - by apply hash_args_ok.
  - by intros ->.
  - by apply serialize_inj.
  - intros l1 l2 -> -> H. apply serialize_inj in H; try done.
    rewrite !map_str_PyStr in H. by subst.
  - vm_compute. discriminate.
Qed.

Section Executor.

Context {B : Type} (model : backend B).

Implicit Types (w : state B) (attr : string) (rq : list pyobj)
  (requests : list (list pyobj)) (res rs : list pyobj).

Lemma cache_key_ok attr rq w :
  forallb hashable rq = true → cache_key attr rq w = (Ok (key attr rq), w).
Proof.
  intros H. unfold cache_key, bind, lift, ret, key. by rewrite hash_args_ok.
Qed.

Lemma cache_key_fail attr rq w :
  forallb hashable rq = false → cache_key attr rq w = (Raise AssertionError, w).
Proof.
  intros H. unfold cache_key, bind, lift. by rewrite hash_args_fail.
Qed.

Lemma lookup_loop_cons attr rq requests res (rem : list (list pyobj)) w :
  forallb hashable rq = true →
  lookup_loop attr (rq :: requests) res rem w =
    match dbdict w !! key attr rq with
    | Some ob =>
        if is_none ob then (Raise AssertionError, w)
        else lookup_loop attr requests (res ++ [ob]) rem w
    | None => lookup_loop attr requests (res ++ [PyNone]) (rem ++ [rq]) w
    end.
Proof.
  intros H. cbn [lookup_loop]. unfold bind at 1. rewrite cache_key_ok by done.
  unfold bind at 1, db_contains.
  destruct (dbdict w !! key attr rq) as [ob|] eqn:E.
  - rewrite bool_decide_eq_true_2 by eauto.
    unfold bind at 1, db_get. rewrite E.
    unfold bind at 1, assert. by destruct (is_none ob).
  - rewrite bool_decide_eq_false_2; [done|]. by intros [? ?].
Qed.

Lemma lookup_loop_cons_fail attr rq requests res (rem : list (list pyobj)) w :
  forallb hashable rq = false →
  lookup_loop attr (rq :: requests) res rem w = (Raise AssertionError, w).
Proof.
  intros H. cbn [lookup_loop]. unfold bind at 1. by rewrite cache_key_fail.
Qed.

(** The first loop does not touch the executor's state. *)
Lemma lookup_loop_state attr requests res (rem : list (list pyobj)) w :
  snd (lookup_loop attr requests res rem w) = w.
Proof.
  revert res rem. induction requests as [|rq requests IH]; intros res rem.
  - done.
  - destruct (forallb hashable rq) eqn:Hh.
    + rewrite lookup_loop_cons by done.
      destruct (dbdict w !! key attr rq) as [ob|]; [destruct (is_none ob)|]; auto.
    + by rewrite lookup_loop_cons_fail.
Qed.

(** The first loop on a batch of well-formed requests. *)
Lemma lookup_loop_spec attr requests res (rem : list (list pyobj)) w :
  all_hashable requests →
  no_stored_none (dbdict w) attr requests →
  lookup_loop attr requests res rem w =
    (Ok (res ++ map (slot (dbdict w) attr) requests,
         rem ++ misses (dbdict w) attr requests), w).
Proof.
  unfold all_hashable, no_stored_none.
  revert res rem. induction requests as [|rq requests IH]; intros res rem Hh Hn.
  - cbn. by rewrite !app_nil_r.
  - apply Forall_cons in Hh as [Hrq Hh]. apply Forall_cons in Hn as [Hnrq Hn].
    rewrite lookup_loop_cons by done.
    cbn [map misses List.filter]. fold (misses (dbdict w) attr requests).
    unfold slot at 1, is_miss at 1.
    destruct (dbdict w !! key attr rq) as [ob|] eqn:E.
    + destruct ob; try done; cbn [is_none default];
        rewrite IH by done; rewrite bool_decide_eq_false_2 by done;
        by rewrite <- app_assoc.
    + rewrite IH by done. rewrite bool_decide_eq_true_2 by done.
      cbn [default]. by rewrite <- !app_assoc.
Qed.

(** What a successful first loop tells about the batch. *)
Lemma lookup_loop_ok_inv attr requests res (rem : list (list pyobj)) w res' rem' :
  fst (lookup_loop attr requests res rem w) = Ok (res', rem') →
  all_hashable requests ∧ no_stored_none (dbdict w) attr requests.
Proof.
  unfold all_hashable, no_stored_none.
  revert res rem. induction requests as [|rq requests IH]; intros res rem H.
  - split; constructor.
  - destruct (forallb hashable rq) eqn:Hh.
    + rewrite lookup_loop_cons in H by done. revert H.
      destruct (dbdict w !! key attr rq) as [ob|] eqn:E; intros H.
      * destruct (is_none ob) eqn:En; [done|].
        apply IH in H as [H1 H2]. split; constructor; try done.
        rewrite E. intros [= ->]. done.
      * apply IH in H as [H1 H2]. split; constructor; try done.
        by rewrite E.
    + by rewrite lookup_loop_cons_fail in H.
Qed.

(** *** The second loop *)

Lemma count_none_app (l1 l2 : list pyobj) :
  count_none (l1 ++ l2) = (count_none l1 + count_none l2)%nat.
Proof. unfold count_none. by rewrite List.filter_app, length_app. Qed.

Lemma count_none_filled (l : list pyobj) :
  Forall (fun v => is_none v = false) l → count_none l = 0%nat.
Proof.
  induction 1 as [|v l Hv _ IH]; [done|].
  unfold count_none in *. cbn. by rewrite Hv.
Qed.

(** The [while] loop stops on the first [None] at or after [resptr]. *)
Lemma advance_spec (tail : list pyobj) (n : nat) :
  (0 < count_none tail)%nat →
  ∃ filled tail',
    tail = filled ++ PyNone :: tail'
    ∧ Forall (fun v => is_none v = false) filled
    ∧ advance tail n = Ok (n + length filled)%nat.
Proof.
  revert n. induction tail as [|v tail IH]; intros n H.
  - unfold count_none in H. cbn in H. lia.
  - destruct (is_none v) eqn:Ev.
    + exists [], tail. destruct v; try done. cbn. repeat split; [constructor|].
      f_equal. lia.
    + assert (0 < count_none tail)%nat as H'.
      { unfold count_none in *. cbn in H. by rewrite Ev in H. }
      destruct (IH (S n) H') as (filled & tail' & -> & Hf & Ha).
      exists (v :: filled), tail'. repeat split.
      * by constructor.
      * cbn. rewrite Ev, Ha. f_equal. lia.
Qed.

Lemma fill_nil (res : list pyobj) : fill res [] = res.
Proof.
  induction res as [|v res IH]; [done|]. cbn. destruct (is_none v); by f_equal.
Qed.

Lemma fill_skip (filled l rs : list pyobj) :
  Forall (fun v => is_none v = false) filled →
  fill (filled ++ l) rs = filled ++ fill l rs.
Proof.
  induction 1 as [|v filled Hv _ IH]; [done|]. cbn. by rewrite Hv, IH.
Qed.

Lemma store_loop_cons attr rq (r : pyobj) pairs res (resptr q : nat) w :
  forallb hashable rq = true →
  advance (drop resptr res) resptr = Ok q →
  store_loop attr ((rq, r) :: pairs) res resptr w =
    store_loop attr pairs (<[q := r]> res) q
      (State (lm w) (<[key attr rq := r]> (dbdict w)) (lm_calls w)).
Proof.
  intros Hh Ha. cbn [store_loop]. unfold bind at 1, lift. rewrite Ha.
  unfold bind at 1. rewrite cache_key_ok by done.
  unfold bind at 1, db_set. done.
Qed.

(** The second loop: the results that are not [None] fill the [None] slots
    from [resptr] on, in order, and every pair is written to the store. *)
Lemma store_loop_spec attr pairs (pre suf : list pyobj) w :
  (length pairs ≤ count_none suf)%nat →
  all_hashable pairs.*1 →
  store_loop attr pairs (pre ++ suf) (length pre) w =
    (Ok (pre ++ fill suf (not_none pairs.*2)),
     State (lm w) (write_all attr pairs (dbdict w)) (lm_calls w)).
Proof.
  unfold all_hashable.
  revert pre suf w. induction pairs as [|[rq r] pairs IH]; intros pre suf w Hlen Hh.
  - cbn. destruct w. unfold ret. cbn. by rewrite fill_nil.
  - cbn in Hh. apply Forall_cons in Hh as [Hrq Hh]. cbn in Hlen.
    destruct (advance_spec suf (length pre)) as (filled & suf' & -> & Hf & Ha); [lia|].
    erewrite store_loop_cons; [|done|by rewrite drop_app_length].
    rewrite app_assoc, <- length_app, <- (Nat.add_0_r (length (pre ++ filled))).
    rewrite insert_app_r. cbn [list_insert insert].
    rewrite Nat.add_0_r.
    rewrite count_none_app, (count_none_filled filled) in Hlen by done.
    rewrite IH; [|unfold count_none in *; cbn in *; destruct (is_none r); cbn; lia|done].
    cbn [dbdict lm lm_calls write_all foldl fmap list_fmap fst snd].
    f_equal. rewrite <- app_assoc. f_equal. rewrite fill_skip by done. f_equal.
    unfold not_none. cbn [List.filter fmap list_fmap snd].
    destruct (is_none r) eqn:Er; cbn [negb].
    + destruct r; try done.
    + cbn. by rewrite Er.
Qed.

(** *** The executor *)

Lemma count_none_slots (db : gmap string pyobj) attr requests :
  no_stored_none db attr requests →
  count_none (map (slot db attr) requests) = length (misses db attr requests).
Proof.
  unfold no_stored_none, count_none, misses.
  induction 1 as [|rq requests Hrq _ IH]; [done|].
  cbn [map List.filter]. unfold slot at 1, is_miss at 1.
  destruct (db !! key attr rq) as [ob|] eqn:E.
  - rewrite bool_decide_eq_false_2 by done.
    destruct ob; try done; cbn; exact IH.
  - rewrite bool_decide_eq_true_2 by done. cbn. by rewrite IH.
Qed.

Lemma misses_hashable (db : gmap string pyobj) attr requests :
  all_hashable requests → all_hashable (misses db attr requests).
Proof.
  unfold all_hashable, misses. induction 1 as [|rq requests Hrq _ IH]; [constructor|].
  cbn. destruct (is_miss db attr rq); [by constructor|done].
Qed.

Lemma zip_fst_hashable (l : list (list pyobj)) (rs : list pyobj) :
  all_hashable l → all_hashable (zip l rs).*1.
Proof.
  unfold all_hashable. intros H. revert rs.
  induction H as [|rq l Hrq _ IH]; intros [|r rs]; cbn; try constructor; auto.
Qed.

Lemma zip_snd_take (l : list (list pyobj)) (rs : list pyobj) :
  (zip l rs).*2 = take (length l) rs.
Proof.
  revert rs. induction l as [|rq l IH]; intros [|r rs]; cbn; try done.
  by rewrite IH.
Qed.

(** The executor on a batch of well-formed requests when the model
    returns: the slots of the misses are filled by the results that are not
    [None], and the store receives one write per pair of
    [zip(remaining_reqs, rem_res)]. *)
Lemma fn_spec attr requests w rs (b' : B) :
  all_hashable requests →
  no_stored_none (dbdict w) attr requests →
  model attr (misses (dbdict w) attr requests) (lm w) = (Ok rs, b') →
  fn model attr requests w =
    (Ok (fill (map (slot (dbdict w) attr) requests)
              (not_none (take (length (misses (dbdict w) attr requests)) rs))),
     State b'
       (write_all attr (zip (misses (dbdict w) attr requests) rs) (dbdict w))
       (lm_calls w ++ [(attr, misses (dbdict w) attr requests)])).
Proof.
  intros Hh Hn Hm. unfold fn. unfold bind at 1.
  rewrite lookup_loop_spec by done. cbn [fst snd app].
  unfold bind at 1, lm_call. rewrite Hm.
  match goal with
  | |- store_loop ?a ?p ?r 0 ?w0 = _ =>
      pose proof (store_loop_spec a p [] r w0) as Hs
  end.
  cbn [app length] in Hs. rewrite Hs.
  - cbn [dbdict lm lm_calls]. by rewrite zip_snd_take.
  - rewrite count_none_slots by done. rewrite length_zip_with. lia.
  - by apply zip_fst_hashable, misses_hashable.
Qed.

(** The executor when the model raises. *)
Lemma fn_model_raise attr requests w e (b' : B) :
  all_hashable requests →
  no_stored_none (dbdict w) attr requests →
  model attr (misses (dbdict w) attr requests) (lm w) = (Raise e, b') →
  fn model attr requests w =
    (Raise e,
     State b' (dbdict w) (lm_calls w ++ [(attr, misses (dbdict w) attr requests)])).
Proof.
  intros Hh Hn Hm. unfold fn. unfold bind at 1.
  rewrite lookup_loop_spec by done. cbn [fst snd app].
  unfold bind at 1, lm_call. by rewrite Hm.
Qed.

(** Whenever the executor raises, the store is as it was. *)
Lemma fn_raise_keeps_store attr requests w e :
  fst (fn model attr requests w) = Raise e →
  dbdict (snd (fn model attr requests w)) = dbdict w.
Proof.
  destruct (lookup_loop attr requests [] [] w) as [[[res rem]|e1] w1] eqn:E.
  - pose proof (lookup_loop_ok_inv attr requests [] [] w res rem) as [Hh Hn].
    { by rewrite E. }
    destruct (model attr (misses (dbdict w) attr requests) (lm w))
      as [[rs|e2] b'] eqn:Em.
    + by rewrite (fn_spec _ _ _ _ _ Hh Hn Em).
    + by rewrite (fn_model_raise _ _ _ _ _ Hh Hn Em).
  - intros _. unfold fn. unfold bind at 1. rewrite E. cbn.
    pose proof (lookup_loop_state attr requests [] [] w) as Hs.
    rewrite E in Hs. cbn in Hs. by subst.
Qed.

Lemma fill_length (res rs : list pyobj) : length (fill res rs) = length res.
Proof.
  revert rs. induction res as [|v res IH]; intros rs; [done|].
  cbn. destruct (is_none v); [destruct rs|]; cbn; by rewrite ?IH.
Qed.

Lemma not_none_id (rs : list pyobj) : none_free rs → not_none rs = rs.
Proof.
  unfold none_free, not_none. induction 1 as [|r rs Hr _ IH]; [done|].
  cbn. by rewrite Hr, IH.
Qed.

Lemma fill_slots_lookup (db : gmap string pyobj) attr requests rs (i : nat) rq :
  no_stored_none db attr requests →
  length rs = length (misses db attr requests) →
  requests !! i = Some rq →
  fill (map (slot db attr) requests) rs !! i =
    match db !! key attr rq with
    | Some ob => Some ob
    | None => rs !! length (misses db attr (take i requests))
    end.
Proof.
  unfold no_stored_none, misses. intros Hn. revert rs i.
  induction Hn as [|rq0 requests Hrq0 _ IH]; intros rs i Hlen Hi; [done|].
  cbn [map fill List.filter] in *. unfold is_miss at 1 in Hlen.
  assert (slot db attr rq0 = default PyNone (db !! key attr rq0)) as Hs by done.
  destruct (db !! key attr rq0) as [ob|] eqn:E; cbv [default from_option id] in Hs; rewrite !Hs.
  - rewrite bool_decide_eq_false_2 in Hlen by done.
    assert (is_none ob = false) as -> by (by destruct ob).
    destruct i as [|i]; cbn in Hi.
    + injection Hi as <-. by rewrite E.
    + assert (is_miss db attr rq0 = false) as Hm.
      { unfold is_miss. rewrite E. by apply bool_decide_eq_false_2. }
      cbn [lookup list_lookup take List.filter]. rewrite Hm. by apply IH.
  - rewrite bool_decide_eq_true_2 in Hlen by done.
    destruct rs as [|r rs]; [done|]. cbn in Hlen. cbn [is_none].
    destruct i as [|i]; cbn in Hi.
    + injection Hi as <-. by rewrite E.
    + assert (is_miss db attr rq0 = true) as Hm.
      { unfold is_miss. rewrite E. by apply bool_decide_eq_true_2. }
      cbn [lookup list_lookup take List.filter]. rewrite Hm.
      cbn [length lookup list_lookup]. apply IH; [lia|done].
Qed.

(** C1 (amended). For a batch whose arguments are strings or integers, a
    store that holds no [None] under the keys of the batch, and a model that
    returns exactly one result per miss, none of them [None], the executor
    returns one result per request in input order: the stored value at every
    position whose key was in the store, and the model's results, in the
    order the misses were submitted, at the others. *)
Theorem execute_order_preserved attr requests w rs (b' : B) :
  all_hashable requests →
  no_stored_none (dbdict w) attr requests →
  model attr (misses (dbdict w) attr requests) (lm w) = (Ok rs, b') →
  length rs = length (misses (dbdict w) attr requests) →
  none_free rs →
  ∃ out w',
    fn model attr requests w = (Ok out, w')
    ∧ order_preserved (dbdict w) attr requests rs out.
Proof.
  intros Hh Hn Hm Hlen Hrs.
  eexists _, _. split; [by apply fn_spec|].
  rewrite <- Hlen, firstn_all, not_none_id by done. split.
  - by rewrite fill_length, length_map.
  - intros i rq Hi. by apply fill_slots_lookup.
Qed.

(** *** The writes of the second loop *)

Lemma write_all_app attr (p1 p2 : list (list pyobj * pyobj)) (db : gmap string pyobj) :
  write_all attr (p1 ++ p2) db = write_all attr p2 (write_all attr p1 db).
Proof. unfold write_all. by rewrite foldl_app. Qed.

Lemma write_all_lookup_ne attr (pairs : list (list pyobj * pyobj))
    (db : gmap string pyobj) (k : string) :
  Forall (fun p => key attr (fst p) ≠ k) pairs →
  write_all attr pairs db !! k = db !! k.
Proof.
  intros H. revert db. induction H as [|p pairs Hp _ IH]; intros db; [done|].
  cbn. unfold write_all in IH. rewrite IH. by rewrite lookup_insert_ne.
Qed.

Lemma write_all_dom attr (pairs : list (list pyobj * pyobj)) (db : gmap string pyobj) :
  dom (write_all attr pairs db)
  = dom db ∪ list_to_set (map (fun p => key attr (fst p)) pairs).
Proof.
  revert db. induction pairs as [|p pairs IH]; intros db; cbn.
  - by rewrite union_empty_r_L.
  - unfold write_all in IH. rewrite IH, dom_insert_L.
    by rewrite (union_comm_L {[_]} (dom db)), union_assoc_L.
Qed.

(** C2 (amended). The executor does not compare the number of results with
    the number of misses. Whatever the length of the list the model returns,
    the call succeeds with one slot per request; the misses and the results
    are paired by [zip], up to the shorter of the two, and exactly these
    pairs are written to the store. *)
Theorem result_count_not_checked attr requests w rs (b' : B) :
  all_hashable requests →
  no_stored_none (dbdict w) attr requests →
  model attr (misses (dbdict w) attr requests) (lm w) = (Ok rs, b') →
  ∃ out w',
    fn model attr requests w = (Ok out, w')
    ∧ length out = length requests
    ∧ out = fill (map (slot (dbdict w) attr) requests)
              (not_none (take (length (misses (dbdict w) attr requests)) rs))
    ∧ dbdict w' = write_all attr (zip (misses (dbdict w) attr requests) rs) (dbdict w)
    ∧ length (zip (misses (dbdict w) attr requests) rs)
      = (length (misses (dbdict w) attr requests) `min` length rs)%nat.
Proof.
  intros Hh Hn Hm. eexists _, _. split; [by apply fn_spec|].
  repeat split.
  - by rewrite fill_length, length_map.
  - by rewrite length_zip_with.
Qed.

(** C3 (amended). The model is called on every execution, also when there
    is no miss. Executing the same single request twice calls the model
    twice: first with the request, then with the empty list. When that
    second call returns, the second execution yields the stored result and
    leaves the store as it is. *)
Theorem repeated_request_calls_model_twice attr rq w (r : pyobj) rs1 rs2 (b1 b2 : B) :
  forallb hashable rq = true →
  dbdict w !! key attr rq = None →
  model attr [rq] (lm w) = (Ok (r :: rs1), b1) →
  is_none r = false →
  model attr [] b1 = (Ok rs2, b2) →
  ∃ w1 w2,
    fn model attr [rq] w = (Ok [r], w1)
    ∧ fn model attr [rq] w1 = (Ok [r], w2)
    ∧ lm_calls w2 = lm_calls w ++ [(attr, [rq]); (attr, [])]
    ∧ dbdict w2 = dbdict w1.
Proof.
  intros Hh Hk Hm1 Hr Hm2.
  assert (misses (dbdict w) attr [rq] = [rq]) as Hmiss.
  { unfold misses, is_miss. cbn. by rewrite bool_decide_eq_true_2. }
  assert (all_hashable [rq]) as Hall by (by repeat constructor).
  assert (no_stored_none (dbdict w) attr [rq]) as Hn.
  { repeat constructor. by rewrite Hk. }
  pose proof (fn_spec attr [rq] w (r :: rs1) b1 Hall Hn) as H1.
  rewrite Hmiss in H1. specialize (H1 Hm1).
  cbn in H1. unfold slot in H1. rewrite Hk in H1. cbn in H1.
  rewrite Hr in H1. cbn in H1.
  set (w1 := State b1 (<[key attr rq := r]> (dbdict w)) (lm_calls w ++ [(attr, [rq])])).
  assert (misses (dbdict w1) attr [rq] = []) as Hmiss2.
  { unfold misses, is_miss. cbn. rewrite lookup_insert_eq.
    by rewrite bool_decide_eq_false_2. }
  assert (no_stored_none (dbdict w1) attr [rq]) as Hn2.
  { repeat constructor. cbn. rewrite lookup_insert_eq. intros [= ->]. done. }
  pose proof (fn_spec attr [rq] w1 rs2 b2 Hall Hn2) as H2.
  rewrite Hmiss2 in H2. specialize (H2 Hm2).
  cbn in H2. unfold slot in H2. cbn in H2. rewrite lookup_insert_eq in H2.
  cbn in H2. rewrite Hr in H2.
  exists w1, (State b2 (<[key attr rq := r]> (dbdict w)) ((lm_calls w ++ [(attr, [rq])]) ++ [(attr, [])])).
  repeat split; try done.
  cbn. by rewrite <- app_assoc.
Qed.

(** The key of a miss is not in the store. *)
Lemma misses_are_absent (db : gmap string pyobj) attr requests rq :
  rq ∈ misses db attr requests → db !! key attr rq = None.
Proof.
  unfold misses. rewrite list_elem_of_In, filter_In. intros [_ H].
  unfold is_miss in H. by apply bool_decide_eq_true_1 in H.
Qed.

(** C4. When the model raises, the executor raises the same exception and
    the store is as it was before the call: no key of a miss of the batch
    is in the store afterwards. The two conditions on the batch are those
    under which the first loop reaches the model ([lookup_loop_ok_inv]). *)
Theorem backend_failure_atomic attr requests w e (b' : B) :
  all_hashable requests →
  no_stored_none (dbdict w) attr requests →
  model attr (misses (dbdict w) attr requests) (lm w) = (Raise e, b') →
  fst (fn model attr requests w) = Raise e
  ∧ dbdict (snd (fn model attr requests w)) = dbdict w
  ∧ ∀ rq, rq ∈ misses (dbdict w) attr requests →
      dbdict (snd (fn model attr requests w)) !! key attr rq = None.
Proof.
  intros Hh Hn Hm. rewrite (fn_model_raise _ _ _ _ _ Hh Hn Hm). cbn.
  repeat split. intros rq Hrq. by eapply misses_are_absent.
Qed.

(** *** A batch against an empty store *)

Lemma misses_empty attr requests : misses ∅ attr requests = requests.
Proof.
  unfold misses. induction requests as [|rq requests IH]; [done|].
  cbn. unfold is_miss at 1. rewrite lookup_empty.
  rewrite bool_decide_eq_true_2 by done. by rewrite IH.
Qed.

Lemma fill_slots_empty attr requests rs :
  length rs = length requests →
  fill (map (slot ∅ attr) requests) rs = rs.
Proof.
  revert rs. induction requests as [|rq requests IH]; intros [|r rs] Hlen; try done.
  cbn [map fill]. unfold slot at 1. rewrite lookup_empty. cbn.
  rewrite IH; [done|]. cbn in Hlen. lia.
Qed.

Lemma write_all_size attr (pairs : list (list pyobj * pyobj)) :
  size (write_all attr pairs ∅)
  = length (remove_dups (map (fun p => key attr (fst p)) pairs)).
Proof.
  rewrite <- size_dom, write_all_dom, dom_empty_L, union_empty_l_L.
  set (ks := map (fun p => key attr (fst p)) pairs).
  assert (list_to_set ks =@{gset string} list_to_set (remove_dups ks)) as ->.
  { apply set_eq. intros k. by rewrite !elem_of_list_to_set, elem_of_remove_dups. }
  apply size_list_to_set, NoDup_remove_dups.
Qed.

(** Last write wins: the value under a key is the one of the last pair
    written under it. *)
Lemma write_all_last attr (pairs : list (list pyobj * pyobj))
    (db : gmap string pyobj) (i : nat) rq (r : pyobj) :
  pairs !! i = Some (rq, r) →
  (∀ j p, (i < j)%nat → pairs !! j = Some p → key attr (fst p) ≠ key attr rq) →
  write_all attr pairs db !! key attr rq = Some r.
Proof.
  intros Hi Hlater.
  rewrite <- (take_drop_middle pairs i (rq, r)) by done.
  rewrite write_all_app. cbn [write_all foldl fst snd].
  fold (write_all attr (drop (S i) pairs)
          (<[key attr rq := r]> (write_all attr (take i pairs) db))).
  rewrite write_all_lookup_ne; [by rewrite lookup_insert_eq|].
  apply Forall_lookup. intros j p Hj. rewrite lookup_drop in Hj.
  apply (Hlater (S i + j)%nat); [lia|done].
Qed.

(** C6 (amended). Against an empty store, with a model that returns one
    result per request, none of them [None]: every occurrence of a request
    is a miss and is submitted to the model, so the batch is not
    deduplicated; every position receives its own result; afterwards the
    store holds one key per distinct cache key of the batch, and under each
    key the result of the last request written under it. *)
Theorem no_dedup_within_batch attr requests w rs (b' : B) :
  dbdict w = ∅ →
  all_hashable requests →
  model attr requests (lm w) = (Ok rs, b') →
  length rs = length requests →
  none_free rs →
  ∃ w',
    fn model attr requests w = (Ok rs, w')
    ∧ misses (dbdict w) attr requests = requests
    ∧ lm_calls w' = lm_calls w ++ [(attr, requests)]
    ∧ size (dbdict w') = length (remove_dups (map (key attr) requests))
    ∧ ∀ (i : nat) rq (r : pyobj),
        requests !! i = Some rq → rs !! i = Some r →
        (∀ (j : nat) rq', (i < j)%nat → requests !! j = Some rq' →
                          key attr rq' ≠ key attr rq) →
        dbdict w' !! key attr rq = Some r.
Proof.
  intros He Hh Hm Hlen Hrs.
  assert (no_stored_none (dbdict w) attr requests) as Hn.
  { rewrite He. apply Forall_forall. intros rq _. by rewrite lookup_empty. }
  pose proof (fn_spec attr requests w rs b' Hh Hn) as Hfn.
  rewrite He, misses_empty in Hfn. rewrite He, misses_empty.
  specialize (Hfn Hm).
  rewrite <- Hlen, firstn_all, not_none_id, fill_slots_empty in Hfn by done.
  eexists. split; [exact Hfn|]. cbn [dbdict lm_calls]. repeat split.
  - rewrite write_all_size. f_equal. f_equal.
    clear -Hlen. revert rs Hlen.
    induction requests as [|rq requests IH]; intros [|r rs] Hlen; try done.
    cbn. f_equal. apply IH. cbn in Hlen. lia.
  - intros i rq r Hi Hr Hlater. apply (write_all_last _ _ _ i).
    + apply lookup_zip_with_Some. eauto.
    + intros j [rq' r'] Hj Hp. apply lookup_zip_with_Some in Hp
        as (x & y & [= <- <-] & Hx & Hy). cbn. by apply (Hlater j).
Qed.

(** *** [None] among the results, [None] in the store *)

Lemma advance_filled (filled suf : list pyobj) (n : nat) :
  Forall (fun v => is_none v = false) filled →
  advance (filled ++ PyNone :: suf) n = Ok (n + length filled)%nat.
Proof.
  intros H. revert n. induction H as [|v filled Hv _ IH]; intros n; cbn.
  - f_equal. lia.
  - rewrite Hv, IH. f_equal. lia.
Qed.

Lemma insert_after (pre filled suf : list pyobj) (r : pyobj) :
  <[(length pre + length filled)%nat := r]> (pre ++ filled ++ PyNone :: suf)
  = pre ++ filled ++ r :: suf.
Proof.
  rewrite insert_app_r. f_equal.
  rewrite <- (Nat.add_0_r (length filled)). by rewrite insert_app_r.
Qed.

(** The slot of a request in the list that the executor returns, whatever
    the number of results. *)
Lemma fill_slots_lookup_gen (db : gmap string pyobj) attr requests rs (i : nat) rq :
  no_stored_none db attr requests →
  requests !! i = Some rq →
  fill (map (slot db attr) requests) rs !! i =
    Some match db !! key attr rq with
         | Some ob => ob
         | None => default PyNone (rs !! length (misses db attr (take i requests)))
         end.
Proof.
  unfold no_stored_none, misses. intros Hn. revert rs i.
  induction Hn as [|rq0 requests Hrq0 _ IH]; intros rs i Hi; [done|].
  cbn [map fill].
  assert (slot db attr rq0 = default PyNone (db !! key attr rq0)) as Hs by done.
  destruct (db !! key attr rq0) as [ob|] eqn:E; cbv [default from_option id] in Hs;
    rewrite !Hs.
  - assert (is_none ob = false) as -> by (by destruct ob).
    destruct i as [|i]; cbn in Hi.
    + injection Hi as <-. by rewrite E.
    + assert (is_miss db attr rq0 = false) as Hm.
      { unfold is_miss. rewrite E. by apply bool_decide_eq_false_2. }
      cbn [lookup list_lookup take List.filter]. rewrite Hm. by apply IH.
  - assert (is_miss db attr rq0 = true) as Hm.
    { unfold is_miss. rewrite E. by apply bool_decide_eq_true_2. }
    cbn [is_none]. destruct rs as [|r rs].
    + destruct i as [|i]; cbn in Hi.
      * injection Hi as <-. by rewrite E.
      * cbn [lookup list_lookup].
        change (map (slot db attr) requests !! i
                = Some match db !! key attr rq with
                       | Some ob => ob
                       | None => default PyNone
                           (@nil pyobj !! length (List.filter (is_miss db attr)
                                                   (take (S i) (rq0 :: requests))))
                       end).
        rewrite <- (fill_nil (map (slot db attr) requests)), (IH [] i Hi).
        destruct (db !! key attr rq); [done|]. by rewrite ?lookup_nil.
    + destruct i as [|i]; cbn in Hi.
      * injection Hi as <-. by rewrite E.
      * cbn [lookup list_lookup take List.filter]. rewrite Hm.
        cbn [length lookup list_lookup]. by apply IH.
Qed.

(** A [None] stored under the key of a request of the batch stops the
    first loop on its assertion. *)
Lemma lookup_loop_stored_none attr requests res (rem : list (list pyobj)) w (i : nat) rq :
  all_hashable requests →
  requests !! i = Some rq →
  dbdict w !! key attr rq = Some PyNone →
  lookup_loop attr requests res rem w = (Raise AssertionError, w).
Proof.
  unfold all_hashable. intros Hh. revert res rem i.
  induction Hh as [|rq0 requests Hrq0 _ IH]; intros res rem i Hi Hk; [done|].
  rewrite lookup_loop_cons by done.
  destruct i as [|i]; cbn in Hi.
  - injection Hi as <-. by rewrite Hk.
  - destruct (dbdict w !! key attr rq0) as [ob|]; [destruct (is_none ob)|]; eauto.
Qed.

Lemma is_none_true (v : pyobj) : is_none v = true → v = PyNone.
Proof. by destruct v. Qed.

Lemma not_none_all_none (l : list pyobj) :
  Forall (fun v => is_none v = true) l → not_none l = [].
Proof.
  unfold not_none. induction 1 as [|v l Hv _ IH]; [done|]. cbn. by rewrite Hv.
Qed.

Lemma not_none_app (l1 l2 : list pyobj) :
  not_none (l1 ++ l2) = not_none l1 ++ not_none l2.
Proof. unfold not_none. apply List.filter_app. Qed.

Lemma not_none_elem (l : list pyobj) (v : pyobj) :
  v ∈ l → is_none v = false → v ∈ not_none l.
Proof.
  intros Hv Hn. unfold not_none.
  apply list_elem_of_In, filter_In. split; [by apply list_elem_of_In|].
  by rewrite Hn.
Qed.

Lemma not_none_head (l : list pyobj) (v : pyobj) :
  not_none l !! 0%nat = Some v → is_none v = false.
Proof.
  intros H. apply list_elem_of_lookup_2, list_elem_of_In in H.
  unfold not_none in H. apply filter_In in H as [_ H].
  by destruct (is_none v).
Qed.

(** When no [None] is followed by a result, the results that are not
    [None], padded with [None], are the results themselves. *)
Lemma compaction_in_order (rs : list pyobj) :
  ¬ none_then_result rs →
  ∀ (j : nat) x, rs !! j = Some x → default PyNone (not_none rs !! j) = x.
Proof.
  induction rs as [|x0 rs IH]; intros Hok j x Hj; [done|].
  destruct (is_none x0) eqn:E0.
  - apply is_none_true in E0 as ->.
    assert (Forall (fun v => is_none v = true) rs) as Hall.
    { apply Forall_lookup. intros q r Hq.
      destruct (is_none r) eqn:Er; [done|].
      exfalso. apply Hok. exists 0%nat, (S q), r. repeat split; [lia|done..]. }
    change (not_none (PyNone :: rs)) with (not_none rs).
    rewrite (not_none_all_none rs Hall), lookup_nil. cbn.
    destruct j as [|j]; cbn in Hj.
    + by injection Hj as <-.
    + rewrite Forall_lookup in Hall. symmetry. by apply is_none_true, (Hall j).
  - assert (not_none (x0 :: rs) = x0 :: not_none rs) as ->.
    { unfold not_none. cbn. by rewrite E0. }
    destruct j as [|j]; cbn in Hj.
    + by injection Hj as <-.
    + cbn. apply IH; [|done].
      intros (p & q & r & Hpq & Hp & Hq & Hr). apply Hok.
      exists (S p), (S q), r. repeat split; [lia|done..].
Qed.

(** When a [None] is followed by a result, some position of the results
    does not hold what the compaction puts there. *)
Lemma compaction_out_of_order (rs : list pyobj) :
  none_then_result rs →
  ∃ (j : nat) x, rs !! j = Some x ∧ default PyNone (not_none rs !! j) ≠ x.
Proof.
  induction rs as [|x0 rs IH]; intros (p & q & r & Hpq & Hp & Hq & Hr); [done|].
  destruct (is_none x0) eqn:E0.
  - apply is_none_true in E0 as ->.
    exists 0%nat, PyNone. split; [done|].
    change (not_none (PyNone :: rs)) with (not_none rs).
    destruct q as [|q]; [lia|]. cbn in Hq.
    assert (r ∈ not_none rs) as Hin
      by (apply not_none_elem; [by eapply list_elem_of_lookup_2|done]).
    destruct (not_none rs) as [|y l] eqn:Enn; [by apply elem_of_nil in Hin|].
    assert (is_none y = false) as Hy by (apply (not_none_head rs); by rewrite Enn).
    cbn. intros ->. done.
  - destruct p as [|p]; [cbn in Hp; injection Hp as ->; done|].
    destruct q as [|q]; [lia|]. cbn in Hp, Hq.
    destruct IH as (j & x & Hj & Hne).
    { exists p, q, r. repeat split; [lia|done..]. }
    exists (S j), x. split; [done|].
    assert (not_none (x0 :: rs) = x0 :: not_none rs) as ->.
    { unfold not_none. cbn. by rewrite E0. }
    done.
Qed.

Lemma miss_rank_lt (db : gmap string pyobj) attr requests (i : nat) rq :
  requests !! i = Some rq →
  db !! key attr rq = None →
  (length (misses db attr (take i requests)) < length (misses db attr requests))%nat.
Proof.
  intros Hi Hk.
  assert (is_miss db attr rq = true) as Hm
    by (unfold is_miss; by apply bool_decide_eq_true_2).
  rewrite <- (take_drop_middle requests i rq Hi) at 2.
  unfold misses. rewrite List.filter_app, length_app. cbn [List.filter].
  rewrite Hm. cbn. lia.
Qed.

Lemma miss_at_rank (db : gmap string pyobj) attr requests (j : nat) :
  (j < length (misses db attr requests))%nat →
  ∃ (i : nat) rq,
    requests !! i = Some rq
    ∧ db !! key attr rq = None
    ∧ length (misses db attr (take i requests)) = j.
Proof.
  unfold misses. revert j. induction requests as [|rq0 requests IH]; intros j Hj.
  - cbn in Hj. lia.
  - cbn [List.filter] in Hj. unfold is_miss at 1 in Hj.
    destruct (db !! key attr rq0) as [ob|] eqn:E.
    + rewrite bool_decide_eq_false_2 in Hj by done.
      destruct (IH j Hj) as (i & rq & Hi & Hk & Hrank).
      exists (S i), rq. repeat split; [done..|].
      cbn [take List.filter]. unfold is_miss at 1.
      by rewrite E, bool_decide_eq_false_2.
    + rewrite bool_decide_eq_true_2 in Hj by done.
      destruct j as [|j].
      * exists 0%nat, rq0. by repeat split.
      * cbn in Hj. destruct (IH j) as (i & rq & Hi & Hk & Hrank); [lia|].
        exists (S i), rq. repeat split; [done..|].
        cbn [take List.filter]. unfold is_miss at 1.
        rewrite E, bool_decide_eq_true_2 by done. cbn. by rewrite Hrank.
Qed.

(** C10 (amended). A result [None] does not move the pointer of the second
    loop past its slot, and the next result is written over it. With one
    result per miss, the results that are not [None] fill the slots of the
    misses in order, so the returned list misassigns results to positions
    exactly when some [None] is followed, later in the list, by a result
    that is not [None]: the slot of the first miss that got [None] then
    holds the first later result that is not [None]. When every [None]
    comes after the last such result, the list is in order. And a [None]
    in the store under the key of a request makes the executor fail on its
    assertion. *)
Theorem none_result_misassigns attr requests w
    (rq1 rq2 : list pyobj) (r : pyobj) (pairs : list (list pyobj * pyobj))
    (pre filled suf rs : list pyobj) (b' : B) (i : nat) rq :
  (forallb hashable rq1 = true → forallb hashable rq2 = true →
   Forall (fun v => is_none v = false) filled →
   store_loop attr ((rq1, PyNone) :: (rq2, r) :: pairs)
     (pre ++ filled ++ PyNone :: suf) (length pre) w
   = store_loop attr pairs (pre ++ filled ++ r :: suf)
       (length pre + length filled)
       (State (lm w)
          (<[key attr rq2 := r]> (<[key attr rq1 := PyNone]> (dbdict w)))
          (lm_calls w)))
  ∧ (all_hashable requests →
     no_stored_none (dbdict w) attr requests →
     model attr (misses (dbdict w) attr requests) (lm w) = (Ok rs, b') →
     length rs = length (misses (dbdict w) attr requests) →
     ∃ out w',
       fn model attr requests w = (Ok out, w')
       ∧ (∀ (i' : nat) rq',
            requests !! i' = Some rq' →
            dbdict w !! key attr rq' = None →
            out !! i'
            = Some (default PyNone
                      (not_none rs
                         !! length (misses (dbdict w) attr (take i' requests)))))
       ∧ (none_then_result rs →
          ¬ order_preserved (dbdict w) attr requests rs out)
       ∧ (¬ none_then_result rs →
          order_preserved (dbdict w) attr requests rs out)
       ∧ (∀ (before nones after : list pyobj) (r' : pyobj) (i' : nat) rq',
            rs = before ++ nones ++ r' :: after →
            none_free before →
            nones ≠ [] →
            Forall (fun v => is_none v = true) nones →
            is_none r' = false →
            requests !! i' = Some rq' →
            dbdict w !! key attr rq' = None →
            length (misses (dbdict w) attr (take i' requests)) = length before →
            rs !! length before = Some PyNone ∧ out !! i' = Some r'))
  ∧ (all_hashable requests →
     requests !! i = Some rq →
     dbdict w !! key attr rq = Some PyNone →
     fn model attr requests w = (Raise AssertionError, w)).
Proof.
  split; [|split].
  - intros H1 H2 Hf.
    erewrite store_loop_cons;
      [|done|by rewrite drop_app_length; apply advance_filled].
    rewrite insert_after.
    erewrite store_loop_cons; [|done|].
    + by rewrite insert_after.
    + rewrite app_assoc, <- length_app, drop_app_length. cbn.
      by rewrite length_app.
  - intros Hh Hn Hm Hlen.
    eexists _, _. split; [by apply fn_spec|].
    rewrite <- Hlen, firstn_all.
    assert (∀ (i' : nat) rq',
              requests !! i' = Some rq' →
              dbdict w !! key attr rq' = None →
              fill (map (slot (dbdict w) attr) requests) (not_none rs) !! i'
              = Some (default PyNone
                        (not_none rs
                           !! length (misses (dbdict w) attr (take i' requests)))))
      as Hslot.
    { intros i' rq' Hi' Hk'.
      rewrite (fill_slots_lookup_gen _ _ _ _ i' rq') by done. by rewrite Hk'. }
    split; [exact Hslot|]. split; [|split].
    + intros Hbad [_ Hord].
      destruct (compaction_out_of_order rs Hbad) as (j & x & Hj & Hne).
      destruct (miss_at_rank (dbdict w) attr requests j) as (i' & rq' & Hi' & Hk' & Hrank).
      { rewrite <- Hlen. by eapply lookup_lt_Some. }
      specialize (Hord i' rq' Hi'). rewrite Hk', Hrank, Hj in Hord.
      rewrite (Hslot i' rq' Hi' Hk'), Hrank in Hord. by injection Hord.
    + intros Hok. split; [by rewrite fill_length, length_map|].
      intros i' rq' Hi'.
      destruct (dbdict w !! key attr rq') as [ob|] eqn:Hk'.
      * rewrite (fill_slots_lookup_gen _ _ _ _ i' rq') by done. by rewrite Hk'.
      * rewrite (Hslot i' rq' Hi' Hk').
        pose proof (miss_rank_lt (dbdict w) attr requests i' rq' Hi' Hk') as Hlt.
        rewrite <- Hlen in Hlt.
        destruct (lookup_lt_is_Some_2 rs _ Hlt) as [x Hx].
        rewrite Hx. f_equal. by apply compaction_in_order.
    + intros before nones after r' i' rq' -> Hb Hne Hnones Hr' Hi' Hk' Hrank.
      split.
      * destruct nones as [|n0 nones]; [done|].
        apply Forall_cons in Hnones as [Hn0 _]. apply is_none_true in Hn0 as ->.
        by rewrite lookup_app_r, Nat.sub_diag.
      * rewrite (Hslot i' rq' Hi' Hk'), Hrank. f_equal.
        rewrite !not_none_app, (not_none_id before), (not_none_all_none nones)
          by done.
        assert (not_none (r' :: after) = r' :: not_none after) as ->.
        { unfold not_none. cbn. by rewrite Hr'. }
        cbn [app]. by rewrite list_lookup_middle.
  - intros Hh Hi Hk. unfold fn. unfold bind at 1.
    by rewrite (lookup_loop_stored_none attr requests [] [] w i rq).
Qed.

End Executor.

Lemma execute_order_preserved_witness :
  ∃ out w',
    fn (scripted_model [PyStr "r0"; PyStr "r1"]) "loglikelihood"
       [[PyStr "a"]; [PyStr "b"]; [PyInt 7]] seeded = (Ok out, w')
    ∧ order_preserved (dbdict seeded) "loglikelihood"
        [[PyStr "a"]; [PyStr "b"]; [PyInt 7]] [PyStr "r0"; PyStr "r1"] out.
Proof.
  apply (execute_order_preserved (scripted_model [PyStr "r0"; PyStr "r1"])
           "loglikelihood" [[PyStr "a"]; [PyStr "b"]; [PyInt 7]] seeded
           [PyStr "r0"; PyStr "r1"] 1%nat).
  - repeat constructor.
  - repeat constructor; vm_compute; discriminate.
  - vm_compute. reflexivity.
  - vm_compute. reflexivity.
  - repeat constructor.
Defined.

(** C1 as stated fails. When the model answers [None] for a miss that is
    not the last, the next result lands in that miss's slot; and a stored
    [None] makes the executor raise. *)
Lemma execute_order_counterexample :
  fst (fn (scripted_model [PyNone; PyStr "late"]) "loglikelihood"
          [[PyStr "a"]; [PyStr "b"]] fresh)
    = Ok [PyStr "late"; PyNone]
  ∧ ¬ order_preserved (dbdict fresh) "loglikelihood"
        [[PyStr "a"]; [PyStr "b"]] [PyNone; PyStr "late"]
        [PyStr "late"; PyNone]
  ∧ fst (fn (scripted_model []) "loglikelihood" [[PyStr "a"]]
           (State 0%nat {[ key "loglikelihood" [PyStr "a"] := PyNone ]} []))
    = Raise AssertionError.
Proof.
  split; [vm_compute; reflexivity|]. split; [|vm_compute; reflexivity].
  intros [_ H]. specialize (H 0%nat [PyStr "a"] eq_refl).
  vm_compute in H. discriminate.
Qed.

(** C2 as stated fails: with two misses and one result, or with three
    results, the executor returns normally and writes to the store. *)
Lemma result_count_counterexample :
  (let run := fn (scripted_model [PyStr "only"]) "loglikelihood"
                 [[PyStr "a"]; [PyStr "b"]] fresh in
   fst run = Ok [PyStr "only"; PyNone]
   ∧ dbdict (snd run) !! key "loglikelihood" [PyStr "a"] = Some (PyStr "only")
   ∧ size (dbdict (snd run)) = 1%nat)
  ∧ (let run := fn (scripted_model [PyStr "r0"; PyStr "r1"; PyStr "r2"])
                   "loglikelihood" [[PyStr "a"]; [PyStr "b"]] fresh in
     fst run = Ok [PyStr "r0"; PyStr "r1"]
     ∧ size (dbdict (snd run)) = 2%nat).
Proof. repeat split; vm_compute; reflexivity. Qed.

Lemma result_count_not_checked_witness :
  ∃ out w',
    fn (scripted_model [PyStr "only"]) "loglikelihood"
       [[PyStr "a"]; [PyStr "b"]] fresh = (Ok out, w')
    ∧ length out = 2%nat
    ∧ out = fill (map (slot ∅ "loglikelihood") [[PyStr "a"]; [PyStr "b"]])
              (not_none (take (length (misses ∅ "loglikelihood"
                                         [[PyStr "a"]; [PyStr "b"]]))
                              [PyStr "only"]))
    ∧ dbdict w' = write_all "loglikelihood"
                    (zip (misses ∅ "loglikelihood" [[PyStr "a"]; [PyStr "b"]])
                         [PyStr "only"]) ∅
    ∧ length (zip (misses ∅ "loglikelihood" [[PyStr "a"]; [PyStr "b"]])
                  [PyStr "only"])
      = (length (misses ∅ "loglikelihood" [[PyStr "a"]; [PyStr "b"]])
         `min` 1)%nat.
Proof.
  apply (result_count_not_checked (scripted_model [PyStr "only"])
           "loglikelihood" [[PyStr "a"]; [PyStr "b"]] fresh [PyStr "only"] 1%nat).
  - repeat constructor.
  - repeat constructor; vm_compute; discriminate.
  - vm_compute. reflexivity.
Defined.

(** C3 as stated fails: two executions of one request call the model twice,
    the second time with no request; and a model that raises on an empty
    batch makes the second execution fail although the result is stored. *)
Lemma repeated_request_counterexample :
  (let w1 := snd (fn (constant_model (PyStr "r")) "loglikelihood" [[PyStr "a"]] fresh) in
   let w2 := snd (fn (constant_model (PyStr "r")) "loglikelihood" [[PyStr "a"]] w1) in
   lm_calls w2 = [("loglikelihood", [[PyStr "a"]]); ("loglikelihood", [])]
   ∧ lm w2 = 2%nat)
  ∧ (let w1 := snd (fn (nonempty_model (PyStr "r")) "loglikelihood" [[PyStr "a"]] fresh) in
     dbdict w1 !! key "loglikelihood" [PyStr "a"] = Some (PyStr "r")
     ∧ fst (fn (nonempty_model (PyStr "r")) "loglikelihood" [[PyStr "a"]] w1)
       = Raise (BackendError "ValueError")).
Proof. repeat split; vm_compute; reflexivity. Qed.

Lemma repeated_request_calls_model_twice_witness :
  ∃ w1 w2,
    fn (constant_model (PyStr "r")) "loglikelihood" [[PyStr "a"]] fresh
      = (Ok [PyStr "r"], w1)
    ∧ fn (constant_model (PyStr "r")) "loglikelihood" [[PyStr "a"]] w1
      = (Ok [PyStr "r"], w2)
    ∧ lm_calls w2
      = lm_calls fresh ++ [("loglikelihood", [[PyStr "a"]]); ("loglikelihood", [])]
    ∧ dbdict w2 = dbdict w1.
Proof.
  apply (repeated_request_calls_model_twice (constant_model (PyStr "r"))
           "loglikelihood" [PyStr "a"] fresh (PyStr "r") [] [] 1%nat 2%nat);
    vm_compute; reflexivity.
Defined.

Lemma backend_failure_atomic_witness :
  fst (fn (failing_model "RuntimeError") "loglikelihood"
          [[PyStr "a"]; [PyStr "b"]; [PyInt 7]] seeded)
    = Raise (BackendError "RuntimeError")
  ∧ dbdict (snd (fn (failing_model "RuntimeError") "loglikelihood"
                    [[PyStr "a"]; [PyStr "b"]; [PyInt 7]] seeded))
    = dbdict seeded
  ∧ ∀ rq, rq ∈ misses (dbdict seeded) "loglikelihood"
                 [[PyStr "a"]; [PyStr "b"]; [PyInt 7]] →
      dbdict (snd (fn (failing_model "RuntimeError") "loglikelihood"
                      [[PyStr "a"]; [PyStr "b"]; [PyInt 7]] seeded))
        !! key "loglikelihood" rq = None.
Proof.
  apply (backend_failure_atomic (failing_model "RuntimeError") "loglikelihood"
           [[PyStr "a"]; [PyStr "b"]; [PyInt 7]] seeded
           (BackendError "RuntimeError") 1%nat).
  - repeat constructor.
  - repeat constructor; vm_compute; discriminate.
  - vm_compute. reflexivity.
Defined.

Lemma hash_args_addressing_witness :
  hash_args [PyStr "10"; PyInt 5]
    = Ok (SHA256.hexdigest (serialize [PyStr "10"; PyInt 5]))
  ∧ ([PyStr "10"; PyInt 5] = [PyStr "1"; PyStr "05"] →
     hash_args [PyStr "10"; PyInt 5] = hash_args [PyStr "1"; PyStr "05"])
  ∧ (serialize [PyStr "10"; PyInt 5] = serialize [PyStr "1"; PyStr "05"] →
     map str [PyStr "10"; PyInt 5] = map str [PyStr "1"; PyStr "05"])
  ∧ (∀ l1 l2 : list string,
       [PyStr "10"; PyInt 5] = map PyStr l1 →
       [PyStr "1"; PyStr "05"] = map PyStr l2 →
       serialize [PyStr "10"; PyInt 5] = serialize [PyStr "1"; PyStr "05"] →
       [PyStr "10"; PyInt 5] = [PyStr "1"; PyStr "05"])
  ∧ hash_args [PyStr "10"; PyStr "5"] ≠ hash_args [PyStr "1"; PyStr "05"].
Proof.
  apply (hash_args_addressing [PyStr "10"; PyInt 5] [PyStr "1"; PyStr "05"]);
    reflexivity.
Defined.

(** C5 as stated fails: the integer 10 and the string ["10"] have the same
    bytes and the same digest, and so have a string that holds a NUL and
    the two strings around it. *)
Lemma hash_args_counterexample :
  [PyInt 10] ≠ [PyStr "10"]
  ∧ serialize [PyInt 10] = serialize [PyStr "10"]
  ∧ hash_args [PyInt 10] = hash_args [PyStr "10"]
  ∧ [PyStr a_nul_b] ≠ [PyStr "a"; PyStr "b"]
  ∧ serialize [PyStr a_nul_b] = serialize [PyStr "a"; PyStr "b"]
  ∧ hash_args [PyStr a_nul_b] = hash_args [PyStr "a"; PyStr "b"].
Proof. repeat split; try discriminate; vm_compute; reflexivity. Qed.

(** The scenario of the specification: the batch [("a",), ("b",), ("a",)]
    gives three misses and two stored keys. *)
Lemma no_dedup_within_batch_witness :
  ∃ w',
    fn (scripted_model [PyStr "r0"; PyStr "r1"; PyStr "r2"]) "loglik"
       [[PyStr "a"]; [PyStr "b"]; [PyStr "a"]] fresh
      = (Ok [PyStr "r0"; PyStr "r1"; PyStr "r2"], w')
    ∧ length (misses ∅ "loglik" [[PyStr "a"]; [PyStr "b"]; [PyStr "a"]]) = 3%nat
    ∧ lm_calls w' = [("loglik", [[PyStr "a"]; [PyStr "b"]; [PyStr "a"]])]
    ∧ size (dbdict w') = 2%nat
    ∧ dbdict w' !! key "loglik" [PyStr "a"] = Some (PyStr "r2")
    ∧ dbdict w' !! key "loglik" [PyStr "b"] = Some (PyStr "r1").
Proof.
  destruct (no_dedup_within_batch
              (scripted_model [PyStr "r0"; PyStr "r1"; PyStr "r2"]) "loglik"
              [[PyStr "a"]; [PyStr "b"]; [PyStr "a"]] fresh
              [PyStr "r0"; PyStr "r1"; PyStr "r2"] 1%nat)
    as (w' & Hfn & Hmiss & Hcalls & Hsize & Hlast).
  - reflexivity.
  - repeat constructor.
  - reflexivity.
  - reflexivity.
  - repeat constructor.
  - unfold fresh in Hmiss, Hcalls. cbn [dbdict lm_calls app] in Hmiss, Hcalls.
    exists w'. split; [exact Hfn|]. split; [by rewrite Hmiss|].
    split; [exact Hcalls|]. split; [rewrite Hsize; vm_compute; reflexivity|].
    split.
    + apply (Hlast 2%nat); [reflexivity..|]. intros j rq' Hj Hrq'.
      destruct j as [|[|[|j]]];
        [exfalso; clear -Hj; lia..|discriminate Hrq'].
    + apply (Hlast 1%nat); [reflexivity..|]. intros j rq' Hj Hrq'.
      destruct j as [|[|[|j]]];
        [exfalso; clear -Hj; lia|exfalso; clear -Hj; lia| |discriminate Hrq'].
      injection Hrq' as <-. vm_compute. discriminate.
Defined.

(** C6 as stated fails. Two distinct argument tuples with the same string
    forms share one key, so the store holds fewer keys than the batch has
    distinct tuples; and with a [None] among the results a position is not
    filled from its own result. *)
Lemma no_dedup_counterexample :
  (let run := fn (scripted_model [PyStr "r0"; PyStr "r1"]) "loglik"
                 [[PyInt 10]; [PyStr "10"]] fresh in
   fst run = Ok [PyStr "r0"; PyStr "r1"]
   ∧ [PyInt 10] ≠ [PyStr "10"]
   ∧ size (dbdict (snd run)) = 1%nat)
  ∧ fst (fn (scripted_model [PyNone; PyStr "r1"; PyStr "r2"]) "loglik"
           [[PyStr "a"]; [PyStr "b"]; [PyStr "a"]] fresh)
    = Ok [PyStr "r1"; PyStr "r2"; PyNone].
Proof.
  repeat split; try discriminate; vm_compute; reflexivity.
Qed.

Lemma none_result_misassigns_witness :
  store_loop "loglikelihood"
      [([PyStr "a"], PyNone); ([PyStr "b"], PyStr "late")]
      [PyNone; PyNone] 0 fresh
    = store_loop "loglikelihood" [] [PyStr "late"; PyNone] 0
        (State 0%nat
           (<[key "loglikelihood" [PyStr "b"] := PyStr "late"]>
              (<[key "loglikelihood" [PyStr "a"] := PyNone]> ∅)) [])
  ∧ (∃ out w',
       fn (scripted_model [PyNone; PyNone; PyStr "x"]) "loglikelihood"
          [[PyStr "a"]; [PyStr "b"]; [PyStr "c"]] fresh = (Ok out, w')
       ∧ out !! 0%nat = Some (PyStr "x")
       ∧ ¬ order_preserved (dbdict fresh) "loglikelihood"
             [[PyStr "a"]; [PyStr "b"]; [PyStr "c"]]
             [PyNone; PyNone; PyStr "x"] out)
  ∧ (∃ out w',
       fn (scripted_model [PyStr "x"; PyNone; PyNone]) "loglikelihood"
          [[PyStr "a"]; [PyStr "b"]; [PyStr "c"]] fresh = (Ok out, w')
       ∧ order_preserved (dbdict fresh) "loglikelihood"
           [[PyStr "a"]; [PyStr "b"]; [PyStr "c"]]
           [PyStr "x"; PyNone; PyNone] out)
  ∧ fn (scripted_model [PyNone; PyStr "late"]) "loglikelihood"
       [[PyStr "b"]; [PyStr "a"]] poisoned
    = (Raise AssertionError, poisoned).
Proof.
  split; [|split; [|split]].
  - apply (proj1 (none_result_misassigns
                    (scripted_model [PyNone; PyStr "late"]) "loglikelihood"
                    [[PyStr "a"]; [PyStr "b"]] fresh
                    [PyStr "a"] [PyStr "b"] (PyStr "late") [] [] [] [PyNone]
                    [PyNone; PyStr "late"] 1%nat 0%nat [PyStr "a"]));
      [reflexivity|reflexivity|constructor].
  - destruct (proj1 (proj2 (none_result_misassigns
                    (scripted_model [PyNone; PyNone; PyStr "x"]) "loglikelihood"
                    [[PyStr "a"]; [PyStr "b"]; [PyStr "c"]] fresh
                    [PyStr "a"] [PyStr "b"] (PyStr "x") [] [] [] [PyNone]
                    [PyNone; PyNone; PyStr "x"] 1%nat 0%nat [PyStr "a"])))
      as (out & w' & Hfn & _ & Hbad & _ & Hslot).
    + repeat constructor.
    + repeat constructor; vm_compute; discriminate.
    + vm_compute. reflexivity.
    + vm_compute. reflexivity.
    + exists out, w'. split; [exact Hfn|]. split.
      * eapply proj2.
        apply (Hslot [] [PyNone; PyNone] [] (PyStr "x") 0%nat [PyStr "a"]).
        -- reflexivity.
        -- constructor.
        -- discriminate.
        -- repeat constructor.
        -- reflexivity.
        -- reflexivity.
        -- vm_compute. reflexivity.
        -- reflexivity.
      * apply Hbad. exists 0%nat, 2%nat, (PyStr "x").
        repeat split; [lia|reflexivity..].
  - destruct (proj1 (proj2 (none_result_misassigns
                    (scripted_model [PyStr "x"; PyNone; PyNone]) "loglikelihood"
                    [[PyStr "a"]; [PyStr "b"]; [PyStr "c"]] fresh
                    [PyStr "a"] [PyStr "b"] (PyStr "x") [] [] [] [PyNone]
                    [PyStr "x"; PyNone; PyNone] 1%nat 0%nat [PyStr "a"])))
      as (out & w' & Hfn & _ & _ & Hok & _).
    + repeat constructor.
    + repeat constructor; vm_compute; discriminate.
    + vm_compute. reflexivity.
    + vm_compute. reflexivity.
    + exists out, w'. split; [exact Hfn|]. apply Hok.
      intros (p & q & r & Hpq & Hp & Hq & Hr).
      destruct p as [|[|[|p]]]; cbn in Hp; try discriminate Hp;
        destruct q as [|[|[|q]]]; cbn in Hq; try discriminate Hq;
        try (exfalso; clear -Hpq; lia);
        injection Hq as <-; discriminate Hr.
  - apply (proj2 (proj2 (none_result_misassigns
                    (scripted_model [PyNone; PyStr "late"]) "loglikelihood"
                    [[PyStr "b"]; [PyStr "a"]] poisoned
                    [PyStr "a"] [PyStr "b"] (PyStr "late") [] [] [] [PyNone]
                    [PyNone; PyStr "late"] 1%nat 1%nat [PyStr "a"]))).
    + repeat constructor.
    + reflexivity.
    + vm_compute. reflexivity.
Defined.

(** C10 as stated fails: the model answers [None] for a miss that is not
    the last, and the returned list is in order all the same, because the
    next result is [None] too; and a list with a [None] in the last place
    is merged in order although not every result differs from [None]. *)
Lemma none_result_counterexample :
  fst (fn (scripted_model [PyNone; PyNone]) "loglikelihood"
          [[PyStr "a"]; [PyStr "b"]] fresh)
    = Ok [PyNone; PyNone]
  ∧ order_preserved (dbdict fresh) "loglikelihood"
      [[PyStr "a"]; [PyStr "b"]] [PyNone; PyNone] [PyNone; PyNone]
  ∧ fst (fn (scripted_model [PyStr "r"; PyNone]) "loglikelihood"
           [[PyStr "a"]; [PyStr "b"]] fresh)
    = Ok [PyStr "r"; PyNone]
  ∧ order_preserved (dbdict fresh) "loglikelihood"
      [[PyStr "a"]; [PyStr "b"]] [PyStr "r"; PyNone] [PyStr "r"; PyNone].
Proof.
  split; [vm_compute; reflexivity|]. split; [|split; [vm_compute; reflexivity|]].
  - split; [reflexivity|]. intros i rq Hi.
    destruct i as [|[|i]]; cbn in Hi; [| |discriminate Hi];
      injection Hi as <-; vm_compute; reflexivity.
  - split; [reflexivity|]. intros i rq Hi.
    destruct i as [|[|i]]; cbn in Hi; [| |discriminate Hi];
      injection Hi as <-; vm_compute; reflexivity.
Qed.

(** ** [Request] and [RequestFactory] *)

(** C7 (amended). [Request] defines neither equality nor hashing: both are
    those of [object], by identity. Two requests constructed one after the
    other from the same fields agree on [type], [args] and [index] and yet
    compare unequal; a request equals itself; equal requests have equal
    hashes. For the cache only the arguments count: the key is computed from
    the operation name and the argument tuple. *)
Theorem request_equality_is_identity (ty : string) (a : list pyobj) (i : option Z)
    (next next1 next2 : nat) (r1 r2 : Request) :
  RequestClass.__init__ ty a i next = (Ok r1, next1) →
  RequestClass.__init__ ty a i next1 = (Ok r2, next2) →
  type r1 = type r2 ∧ args r1 = args r2 ∧ index r1 = index r2
  ∧ RequestClass.__eq__ r1 r2 = false
  ∧ RequestClass.__eq__ r1 r1 = true
  ∧ (∀ x y, RequestClass.__eq__ x y = true →
            RequestClass.__hash__ x = RequestClass.__hash__ y)
  ∧ ∀ attr, key attr (args r1) = key attr (args r2).
Proof.
  unfold RequestClass.__init__. destruct (req_ret_lens !! ty); [|discriminate].
  intros [= <- <-] [= <-]. cbn. repeat split.
  - apply Nat.eqb_neq. lia.
  - apply Nat.eqb_refl.
  - intros x y H. unfold RequestClass.__eq__, RequestClass.__hash__ in *.
    by apply Nat.eqb_eq.
Qed.

Lemma request_equality_is_identity_witness :
  type (mkRequest 0 "loglikelihood" [PyStr "a"; PyStr "b"] None)
    = type (mkRequest 1 "loglikelihood" [PyStr "a"; PyStr "b"] None)
  ∧ args (mkRequest 0 "loglikelihood" [PyStr "a"; PyStr "b"] None)
    = args (mkRequest 1 "loglikelihood" [PyStr "a"; PyStr "b"] None)
  ∧ index (mkRequest 0 "loglikelihood" [PyStr "a"; PyStr "b"] None)
    = index (mkRequest 1 "loglikelihood" [PyStr "a"; PyStr "b"] None)
  ∧ RequestClass.__eq__
      (mkRequest 0 "loglikelihood" [PyStr "a"; PyStr "b"] None)
      (mkRequest 1 "loglikelihood" [PyStr "a"; PyStr "b"] None) = false
  ∧ RequestClass.__eq__
      (mkRequest 0 "loglikelihood" [PyStr "a"; PyStr "b"] None)
      (mkRequest 0 "loglikelihood" [PyStr "a"; PyStr "b"] None) = true
  ∧ (∀ x y, RequestClass.__eq__ x y = true →
            RequestClass.__hash__ x = RequestClass.__hash__ y)
  ∧ ∀ attr,
      key attr (args (mkRequest 0 "loglikelihood" [PyStr "a"; PyStr "b"] None))
      = key attr (args (mkRequest 1 "loglikelihood" [PyStr "a"; PyStr "b"] None)).
Proof.
  apply (request_equality_is_identity "loglikelihood" [PyStr "a"; PyStr "b"]
           None 0%nat 1%nat 2%nat); reflexivity.
Defined.

(** C7 as stated fails: two requests built by the factory from the same
    arguments have identical fields, compare unequal and hash differently. *)
Lemma request_equality_counterexample :
  let r1 := mkRequest 0 "loglikelihood" [PyStr "a"; PyStr "b"] None in
  let r2 := mkRequest 1 "loglikelihood" [PyStr "a"; PyStr "b"] None in
  RequestFactory.__getattr__ "loglikelihood" [PyStr "a"; PyStr "b"] 0%nat
    = (Ok r1, 1%nat)
  ∧ RequestFactory.__getattr__ "loglikelihood" [PyStr "a"; PyStr "b"] 1%nat
    = (Ok r2, 2%nat)
  ∧ (type r1, args r1, index r1) = (type r2, args r2, index r2)
  ∧ RequestClass.__eq__ r1 r2 = false
  ∧ RequestClass.__hash__ r1 ≠ RequestClass.__hash__ r2.
Proof. repeat split; try reflexivity. cbn. lia. Qed.

(** C8. For a registered kind the factory returns the request with that
    kind, the arguments given and no index. For a kind that is not
    registered the constructor raises [NotImplementedError] and returns no
    request; construction runs in the allocator alone, it has no access to
    the store or to the model. *)
Theorem request_factory_constructs (attr : string) (a : list pyobj)
    (i : option Z) (next : nat) :
  (is_Some (req_ret_lens !! attr) →
   RequestFactory.__getattr__ attr a next
   = (Ok (mkRequest next attr a None), S next))
  ∧ (req_ret_lens !! attr = None →
     RequestClass.__init__ attr a i next
     = (Raise (NotImplementedError
                 ("The request type " +:+ attr +:+ " is not implemented!")),
        S next)
     ∧ RequestFactory.__getattr__ attr a next
       = (Raise (NotImplementedError
                   ("The request type " +:+ attr +:+ " is not implemented!")),
          S next)).
Proof.
  unfold RequestFactory.__getattr__, RequestClass.__init__. split.
  - intros [n ->]. done.
  - intros ->. done.
Qed.

Lemma request_factory_constructs_witness :
  RequestFactory.__getattr__ "loglikelihood" [PyStr "ctx"; PyStr " cont"] 0%nat
    = (Ok (mkRequest 0 "loglikelihood" [PyStr "ctx"; PyStr " cont"] None), 1%nat)
  ∧ RequestClass.__init__ "nonexistent" [PyStr "x"] (Some 1%Z) 0%nat
    = (Raise (NotImplementedError
                "The request type nonexistent is not implemented!"), 1%nat)
  ∧ RequestFactory.__getattr__ "nonexistent" [PyStr "x"] 0%nat
    = (Raise (NotImplementedError
                "The request type nonexistent is not implemented!"), 1%nat).
Proof.
  split.
  - apply (proj1 (request_factory_constructs "loglikelihood"
                    [PyStr "ctx"; PyStr " cont"] None 0%nat)).
    vm_compute. eauto.
  - apply (proj2 (request_factory_constructs "nonexistent"
                    [PyStr "x"] (Some 1%Z) 0%nat)).
    vm_compute. reflexivity.
Defined.

(** C9 on the code: the registry holds the single kind [loglikelihood], so
    a greedy-generation request cannot be constructed. *)
Theorem greedy_until_not_registered (a : list pyobj) (next : nat) :
  dom req_ret_lens = {[ "loglikelihood" ]}
  ∧ req_ret_lens !! "greedy_until" = None
  ∧ RequestFactory.__getattr__ "greedy_until" a next
    = (Raise (NotImplementedError
                "The request type greedy_until is not implemented!"), S next).
Proof.
  split; [apply dom_singleton_L|]. split; reflexivity.
Qed.

(** * Further properties of the executor *)

(** ** The format of a cache key *)

Lemma string_length_app (s t : string) :
  String.length (s +:+ t) = (String.length s + String.length t)%nat.
Proof.
  induction s as [|c s IH]; [done|].
  change (S (String.length (s +:+ t)) = S (String.length s + String.length t)).
  by rewrite IH.
Qed.

Lemma all_chars_app (p : ascii → bool) (s t : string) :
  all_chars p (s +:+ t) = all_chars p s && all_chars p t.
Proof.
  induction s as [|c s IH]; [done|].
  change (p c && all_chars p (s +:+ t) = p c && all_chars p s && all_chars p t).
  rewrite IH. by rewrite andb_assoc.
Qed.




Lemma be_bytes_length (n : nat) (x : Z) : length (SHA256.be_bytes n x) = n.
Proof. induction n as [|n IH]; [done|]. cbn. by rewrite IH. Qed.

Lemma be_bytes_range (n : nat) (x : Z) :
  Forall (fun b => (0 ≤ b < 256)%Z) (SHA256.be_bytes n x).
Proof.
  induction n as [|n IH]; constructor; [|done].
  change 255%Z with (Z.ones 8). rewrite Z.land_ones by lia.
  apply Z.mod_pos_bound. lia.
Qed.

Lemma hex_digit_is_hex (d : Z) :
  (0 ≤ d < 16)%Z → is_hex_char (SHA256.hex_digit d) = true.
Proof.
  intros H.
  assert (d = 0 ∨ d = 1 ∨ d = 2 ∨ d = 3 ∨ d = 4 ∨ d = 5 ∨ d = 6 ∨ d = 7
          ∨ d = 8 ∨ d = 9 ∨ d = 10 ∨ d = 11 ∨ d = 12 ∨ d = 13 ∨ d = 14
          ∨ d = 15)%Z as Hd by lia.
  repeat (destruct Hd as [->|Hd]; [reflexivity|]). by subst.
Qed.

Lemma hex_byte_is_hex (b : Z) :
  (0 ≤ b < 256)%Z → all_chars is_hex_char (SHA256.hex_byte b) = true.
Proof.
  intros H. unfold SHA256.hex_byte. cbn [all_chars].
  rewrite !hex_digit_is_hex; [done| |].
  - change 15%Z with (Z.ones 4). rewrite Z.land_ones by lia.
    apply Z.mod_pos_bound. lia.
  - rewrite Z.shiftr_div_pow2 by lia. change (2 ^ 4)%Z with 16%Z.
    split; [apply Z.div_pos; lia|apply Z.div_lt_upper_bound; lia].
Qed.

Lemma hex_of_bytes (bs : list Z) :
  Forall (fun b => (0 ≤ b < 256)%Z) bs →
  String.length (foldr (fun b acc => append (SHA256.hex_byte b) acc) EmptyString bs)
    = (2 * length bs)%nat
  ∧ all_chars is_hex_char
      (foldr (fun b acc => append (SHA256.hex_byte b) acc) EmptyString bs) = true.
Proof.
  induction 1 as [|b bs Hb _ [IH1 IH2]]; [done|]. cbn [foldr length]. split.
  - rewrite string_length_app, IH1. cbn. lia.
  - rewrite all_chars_app, IH2, hex_byte_is_hex by done. done.
Qed.

Lemma hexdigest_format (dat : list byte) :
  String.length (SHA256.hexdigest dat) = 64%nat
  ∧ all_chars is_hex_char (SHA256.hexdigest dat) = true.
Proof.
  unfold SHA256.hexdigest.
  set (ws := SHA256.digest_words _).
  assert (length ws = 8%nat) as Hws by reflexivity.
  assert (length (concat (map (SHA256.be_bytes 4) ws)) = 32%nat) as Hlen.
  { clearbody ws. do 9 (destruct ws as [|? ws]; try done). }
  destruct (hex_of_bytes (concat (map (SHA256.be_bytes 4) ws))) as [H1 H2].
  - apply Forall_concat, Forall_forall. intros bs Hbs.
    apply list_elem_of_fmap in Hbs as (x & -> & _). apply be_bytes_range.
  - split; [|done]. etrans; [exact H1|]. by rewrite Hlen.
Qed.

(** X1. The digest that [hash_args] returns has 64 characters, all of them
    lowercase hexadecimal digits, whatever the arguments. *)
Theorem hash_args_digest_format (args : list pyobj) (h : string) :
  hash_args args = Ok h →
  String.length h = 64%nat ∧ all_chars is_hex_char h = true.
Proof.
  unfold hash_args. destruct (hash_args_dat args []) as [dat|e]; [|done].
  intros [= <-]. apply hexdigest_format.
Qed.

Lemma hash_args_digest_format_witness :
  String.length "ffe9aaeaa2a2d5048174df0b80599ef0197ec024c4b051bc9860cff58ef7f9f3"
    = 64%nat
  ∧ all_chars is_hex_char
      "ffe9aaeaa2a2d5048174df0b80599ef0197ec024c4b051bc9860cff58ef7f9f3" = true.
Proof.
  apply (hash_args_digest_format [PyStr "a"]). vm_compute. reflexivity.
Defined.



(** ** What an execution does to the store and to the model *)

Section ExecutorEffects.

Context {B : Type} (model : backend B).

Implicit Types (w : state B) (attr : string) (rq : list pyobj)
  (requests : list (list pyobj)) (res rs : list pyobj).

Lemma lookup_loop_unhashable attr requests res (rem : list (list pyobj)) w :
  Exists (fun rq => forallb hashable rq = false) requests →
  lookup_loop attr requests res rem w = (Raise AssertionError, w).
Proof.
  intros H. revert res rem.
  induction H as [rq requests Hrq|rq requests _ IH]; intros res rem.
  - by apply lookup_loop_cons_fail.
  - destruct (forallb hashable rq) eqn:Hh; [|by apply lookup_loop_cons_fail].
    rewrite lookup_loop_cons by done.
    destruct (dbdict w !! key attr rq) as [ob|]; [destruct (is_none ob)|]; auto.
Qed.

(** X3. A batch with an argument that is neither a string nor an integer
    fails on the assertion of [hash_args] before the model is called and
    before anything is written: the executor's state is unchanged. *)
Theorem unhashable_argument_fails_first attr requests w :
  Exists (fun rq => forallb hashable rq = false) requests →
  fn model attr requests w = (Raise AssertionError, w).
Proof.
  intros H. unfold fn. unfold bind at 1.
  by rewrite lookup_loop_unhashable.
Qed.

(** The first loop raises nothing but the [AssertionError] of [hash_args]
    and of the test on the stored value. *)
Lemma lookup_loop_raise attr requests res (rem : list (list pyobj)) w e w1 :
  lookup_loop attr requests res rem w = (Raise e, w1) →
  e = AssertionError ∧ w1 = w.
Proof.
  revert res rem. induction requests as [|rq requests IH]; intros res rem H.
  - done.
  - destruct (forallb hashable rq) eqn:Hh.
    + rewrite lookup_loop_cons in H by done. revert H.
      destruct (dbdict w !! key attr rq) as [ob|]; [destruct (is_none ob)|];
        intros H; eauto. by injection H as <- <-.
    + rewrite lookup_loop_cons_fail in H by done. by injection H as <- <-.
Qed.

Lemma zip_fst_elem (l : list (list pyobj)) (rs : list pyobj) (p : list pyobj * pyobj) :
  p ∈ zip l rs → fst p ∈ l.
Proof.
  intros H. apply list_elem_of_lookup in H as [i Hi].
  apply lookup_zip_with_Some in Hi as (x & y & -> & Hx & _).
  cbn. by eapply list_elem_of_lookup_2.
Qed.

(** The executor in all its cases. *)
Lemma fn_cases attr requests w :
  (fn model attr requests w = (Raise AssertionError, w)
   ∧ ¬ (all_hashable requests ∧ no_stored_none (dbdict w) attr requests))
  ∨ (all_hashable requests ∧ no_stored_none (dbdict w) attr requests
     ∧ ∃ b',
         (∃ e, model attr (misses (dbdict w) attr requests) (lm w) = (Raise e, b')
               ∧ fn model attr requests w
                 = (Raise e,
                    State b' (dbdict w)
                      (lm_calls w ++ [(attr, misses (dbdict w) attr requests)])))
         ∨ (∃ rs, model attr (misses (dbdict w) attr requests) (lm w) = (Ok rs, b')
                  ∧ fn model attr requests w
                    = (Ok (fill (map (slot (dbdict w) attr) requests)
                             (not_none (take (length (misses (dbdict w) attr requests)) rs))),
                       State b'
                         (write_all attr (zip (misses (dbdict w) attr requests) rs)
                            (dbdict w))
                         (lm_calls w ++ [(attr, misses (dbdict w) attr requests)])))).
Proof.
  destruct (lookup_loop attr requests [] [] w) as [[[res rem]|e1] w1] eqn:E.
  - right.
    pose proof (lookup_loop_ok_inv attr requests [] [] w res rem) as [Hh Hn].
    { by rewrite E. }
    split; [done|]. split; [done|].
    destruct (model attr (misses (dbdict w) attr requests) (lm w))
      as [[rs|e2] b'] eqn:Em; exists b'.
    + right. exists rs. split; [done|]. by apply fn_spec.
    + left. exists e2. split; [done|]. by apply fn_model_raise.
  - left.
    assert (¬ (all_hashable requests ∧ no_stored_none (dbdict w) attr requests)) as Hnot.
    { intros [Hh Hn]. by rewrite (lookup_loop_spec attr requests [] [] w Hh Hn) in E. }
    split; [|done].
    destruct (lookup_loop_raise attr requests [] [] w e1 w1 E) as [-> ->].
    unfold fn. unfold bind at 1. by rewrite E.
Qed.

(** X4. An execution never removes or overwrites an entry of the store:
    whatever the model does and however the call ends, every key that was
    in the store keeps its value. *)
Theorem existing_entries_kept attr requests w (k : string) (v : pyobj) :
  dbdict w !! k = Some v →
  dbdict (snd (fn model attr requests w)) !! k = Some v.
Proof.
  intros Hk.
  destruct (fn_cases attr requests w)
    as [[-> _]|(Hh & Hn & b' & [(e & _ & ->)|(rs & _ & ->)])]; try done.
  cbn [snd dbdict]. rewrite write_all_lookup_ne; [done|].
  apply Forall_forall. intros p Hp Heq.
  apply zip_fst_elem, misses_are_absent in Hp. rewrite Heq in Hp. congruence.
Qed.

(** X5. An execution calls the model at most once, and only with the
    requests whose key is not in the store: the record of calls is either
    unchanged (the call failed in the first loop) or longer by the one call
    on the misses of the batch. *)
Theorem at_most_one_model_call attr requests w :
  (lm_calls (snd (fn model attr requests w)) = lm_calls w
   ∨ lm_calls (snd (fn model attr requests w))
     = lm_calls w ++ [(attr, misses (dbdict w) attr requests)])
  ∧ Forall (fun rq => dbdict w !! key attr rq = None)
      (misses (dbdict w) attr requests).
Proof.
  split.
  - destruct (fn_cases attr requests w)
      as [[-> _]|(Hh & Hn & b' & [(e & _ & ->)|(rs & _ & ->)])]; auto.
  - apply Forall_forall. intros rq Hrq. by eapply misses_are_absent.
Qed.

Lemma write_all_lookup_inv attr (pairs : list (list pyobj * pyobj))
    (db : gmap string pyobj) (k : string) (v : pyobj) :
  write_all attr pairs db !! k = Some v →
  db !! k = Some v ∨ v ∈ pairs.*2.
Proof.
  revert db. induction pairs as [|[rq r] pairs IH]; intros db H; [by left|].
  cbn in H. apply IH in H as [H|H].
  - destruct (decide (key attr rq = k)) as [<-|Hne].
    + rewrite lookup_insert_eq in H. injection H as <-. right. cbn. left.
    + rewrite lookup_insert_ne in H by done. by left.
  - right. cbn. by right.
Qed.

Lemma misses_nil_of_present (db : gmap string pyobj) attr requests :
  Forall (fun rq => is_Some (db !! key attr rq)) requests →
  misses db attr requests = [].
Proof.
  unfold misses. induction 1 as [|rq requests [v Hv] _ IH]; [done|].
  cbn. unfold is_miss at 1. rewrite Hv.
  by rewrite bool_decide_eq_false_2.
Qed.

(** X6. After an execution in which the model returned a result for every
    miss, none of them [None], every request of the batch is in the store.
    Executing the same batch again submits no request to the model, only
    the call on the empty list, and leaves the store as it is. When that
    call returns, the execution returns for every position the value stored
    under the key of its request; when it raises, the execution raises the
    same exception. *)
Theorem rerun_served_from_store attr requests w rs (b1 : B) :
  all_hashable requests →
  no_stored_none (dbdict w) attr requests →
  model attr (misses (dbdict w) attr requests) (lm w) = (Ok rs, b1) →
  (length (misses (dbdict w) attr requests) ≤ length rs)%nat →
  none_free rs →
  ∃ out1 w1,
    fn model attr requests w = (Ok out1, w1)
    ∧ lm w1 = b1
    ∧ misses (dbdict w1) attr requests = []
    ∧ lm_calls (snd (fn model attr requests w1)) = lm_calls w1 ++ [(attr, [])]
    ∧ dbdict (snd (fn model attr requests w1)) = dbdict w1
    ∧ (∀ rs2 (b2 : B),
         model attr [] b1 = (Ok rs2, b2) →
         ∃ out2,
           fst (fn model attr requests w1) = Ok out2
           ∧ ∀ (i : nat) rq, requests !! i = Some rq →
               is_Some (out2 !! i) ∧ out2 !! i = dbdict w1 !! key attr rq)
    ∧ (∀ e (b2 : B),
         model attr [] b1 = (Raise e, b2) →
         fst (fn model attr requests w1) = Raise e).
Proof.
  intros Hh Hn Hm Hlen Hrs.
  set (ms := misses (dbdict w) attr requests) in *.
  set (db1 := write_all attr (zip ms rs) (dbdict w)).
  set (w1 := State b1 db1 (lm_calls w ++ [(attr, ms)])).
  assert (Forall (fun rq => is_Some (db1 !! key attr rq)) requests) as Hpresent.
  { apply Forall_forall. intros rq Hrq.
    apply elem_of_dom. unfold db1. rewrite write_all_dom.
    destruct (dbdict w !! key attr rq) as [v|] eqn:Ek.
    - apply elem_of_union_l, elem_of_dom. eauto.
    - apply elem_of_union_r, elem_of_list_to_set.
      rewrite <- (map_map fst (key attr)).
      change (map fst (zip ms rs)) with ((zip ms rs).*1).
      rewrite fst_zip by done.
      apply list_elem_of_fmap. exists rq. split; [done|].
      unfold ms, misses. apply list_elem_of_In, filter_In. split.
      + by apply list_elem_of_In.
      + unfold is_miss. by apply bool_decide_eq_true_2. }
  assert (no_stored_none db1 attr requests) as Hn1.
  { apply Forall_forall. intros rq Hrq Hk.
    apply write_all_lookup_inv in Hk as [Hk|Hk].
    - unfold no_stored_none in Hn. rewrite Forall_forall in Hn. by apply (Hn rq).
    - rewrite zip_snd_take in Hk. apply elem_of_take in Hk as (j & Hj & _).
      unfold none_free in Hrs. rewrite Forall_lookup in Hrs.
      by specialize (Hrs j PyNone Hj). }
  assert (misses db1 attr requests = []) as Hmiss1 by (by apply misses_nil_of_present).
  pose proof (fn_spec model attr requests w rs b1 Hh Hn Hm) as H1.
  pose proof (fn_spec model attr requests w1) as H2.
  pose proof (fn_model_raise model attr requests w1) as H3.
  change (dbdict w1) with db1 in H2, H3. change (lm w1) with b1 in H2, H3.
  rewrite Hmiss1 in H2, H3.
  eexists _, w1. split; [exact H1|]. split; [done|]. split; [exact Hmiss1|].
  destruct (model attr [] b1) as [[rs2|e] b2] eqn:Hm2.
  - specialize (H2 rs2 b2 Hh Hn1 eq_refl).
    cbn [length take zip zip_with write_all foldl] in H2.
    change (not_none []) with (@nil pyobj) in H2. rewrite fill_nil in H2.
    rewrite H2. cbn [fst snd dbdict lm_calls].
    split; [done|]. split; [done|]. split; [|by intros e b [=]].
    intros rs2' b2' [= <- <-]. eexists. split; [done|].
    intros i rq Hi. rewrite list_lookup_fmap, Hi. cbn.
    rewrite Forall_lookup in Hpresent. destruct (Hpresent i rq Hi) as [v Hv].
    unfold slot. rewrite Hv. cbn. eauto.
  - specialize (H3 e b2 Hh Hn1 eq_refl). rewrite H3. cbn [fst snd dbdict lm_calls].
    split; [done|]. split; [done|]. split; [by intros rs2 b [=]|].
    by intros e' b2' [= <- <-].
Qed.

End ExecutorEffects.

Lemma unhashable_argument_fails_first_witness :
  fn (constant_model (PyStr "r")) "loglikelihood"
     [[PyStr "a"]; [PyStr "ctx"; PyFloat 0]] fresh
  = (Raise AssertionError, fresh).
Proof.
  apply (unhashable_argument_fails_first (constant_model (PyStr "r"))).
  apply Exists_cons_tl, Exists_cons_hd. reflexivity.
Defined.

Lemma existing_entries_kept_witness :
  dbdict (snd (fn (constant_model (PyStr "r")) "loglikelihood"
                  [[PyStr "a"]; [PyStr "b"]] seeded))
    !! key "loglikelihood" [PyStr "b"] = Some (PyStr "cached").
Proof.
  apply (existing_entries_kept (constant_model (PyStr "r"))).
  vm_compute. reflexivity.
Defined.

Lemma rerun_served_from_store_witness :
  ∃ out1 w1,
    fn (nonempty_model (PyStr "r")) "loglikelihood"
       [[PyStr "a"]; [PyStr "b"]; [PyStr "a"]] seeded = (Ok out1, w1)
    ∧ lm w1 = 1%nat
    ∧ misses (dbdict w1) "loglikelihood" [[PyStr "a"]; [PyStr "b"]; [PyStr "a"]] = []
    ∧ lm_calls (snd (fn (nonempty_model (PyStr "r")) "loglikelihood"
                       [[PyStr "a"]; [PyStr "b"]; [PyStr "a"]] w1))
      = lm_calls w1 ++ [("loglikelihood", [])]
    ∧ dbdict (snd (fn (nonempty_model (PyStr "r")) "loglikelihood"
                     [[PyStr "a"]; [PyStr "b"]; [PyStr "a"]] w1))
      = dbdict w1
    ∧ (∀ rs2 (b2 : nat),
         nonempty_model (PyStr "r") "loglikelihood" [] 1%nat = (Ok rs2, b2) →
         ∃ out2,
           fst (fn (nonempty_model (PyStr "r")) "loglikelihood"
                  [[PyStr "a"]; [PyStr "b"]; [PyStr "a"]] w1) = Ok out2
           ∧ ∀ (i : nat) rq,
               [[PyStr "a"]; [PyStr "b"]; [PyStr "a"]] !! i = Some rq →
               is_Some (out2 !! i)
               ∧ out2 !! i = dbdict w1 !! key "loglikelihood" rq)
    ∧ (∀ e (b2 : nat),
         nonempty_model (PyStr "r") "loglikelihood" [] 1%nat = (Raise e, b2) →
         fst (fn (nonempty_model (PyStr "r")) "loglikelihood"
                [[PyStr "a"]; [PyStr "b"]; [PyStr "a"]] w1) = Raise e).
Proof.
  apply (rerun_served_from_store (nonempty_model (PyStr "r")) "loglikelihood"
           [[PyStr "a"]; [PyStr "b"]; [PyStr "a"]] seeded
           [PyStr "r"; PyStr "r"] 1%nat).
  - repeat constructor.
  - repeat constructor; vm_compute; discriminate.
  - vm_compute. reflexivity.
  - vm_compute. lia.
  - repeat constructor.
Defined.

(** * Requests of a task *)

Lemma loglikelihood_registered : req_ret_lens !! "loglikelihood" = Some 2%Z.
Proof. reflexivity. Qed.

Lemma init_registered (ty : string) (a : list pyobj) (i : option Z) (next : nat) (n : Z) :
  req_ret_lens !! ty = Some n →
  RequestClass.__init__ ty a i next = (Ok (mkRequest next ty a i), S next).
Proof. unfold RequestClass.__init__. by intros ->. Qed.

Lemma iter_from_spec (self : Request) (n : nat) (i : Z) (next : nat) (m : Z) :
  req_ret_lens !! type self = Some m →
  ∃ rs,
    RequestClass.iter_from self n i next = (Ok rs, (next + n)%nat)
    ∧ length rs = n
    ∧ ∀ (j : nat) r, rs !! j = Some r →
        r = mkRequest (next + j) (type self) (args self) (Some (i + Z.of_nat j)%Z).
Proof.
  intros Hreg. revert i next. induction n as [|n IH]; intros i next.
  - exists []. cbn. rewrite Nat.add_0_r. by repeat split.
  - cbn [RequestClass.iter_from].
    rewrite (init_registered _ _ _ _ m Hreg).
    destruct (IH (i + 1)%Z (S next)) as (rs & -> & Hlen & Hrs).
    eexists. split; [f_equal; lia|]. split; [cbn; by rewrite Hlen|].
    intros [|j] r Hj; cbn in Hj.
    + injection Hj as <-. f_equal; [lia|f_equal; lia].
    + rewrite (Hrs j r Hj). f_equal; [lia|f_equal; lia].
Qed.

(** X7. Iterating a request yields one request per result component of its
    kind, as many as the registry says: the j-th has the kind and the
    arguments of the request, the index [j], and a fresh identity. *)
Theorem request_iter_components (self : Request) (next : nat) (n : Z) :
  req_ret_lens !! type self = Some n →
  ∃ rs,
    RequestClass.__iter__ self next = (Ok rs, (next + Z.to_nat n)%nat)
    ∧ length rs = Z.to_nat n
    ∧ ∀ (j : nat) r, rs !! j = Some r →
        r = mkRequest (next + j) (type self) (args self) (Some (Z.of_nat j)).
Proof.
  intros Hreg. unfold RequestClass.__iter__. rewrite Hreg.
  destruct (iter_from_spec self (Z.to_nat n) 0 next n Hreg) as (rs & -> & Hlen & Hrs).
  exists rs. repeat split; [done|].
  intros j r Hj. rewrite (Hrs j r Hj). f_equal.
Qed.

Lemma request_iter_components_witness :
  ∃ rs,
    RequestClass.__iter__
      (mkRequest 0 "loglikelihood" [PyStr "ctx"; PyStr " yes"] None) 1%nat
      = (Ok rs, (1 + Z.to_nat 2)%nat)
    ∧ length rs = Z.to_nat 2
    ∧ ∀ (j : nat) r, rs !! j = Some r →
        r = mkRequest (1 + j) "loglikelihood" [PyStr "ctx"; PyStr " yes"]
              (Some (Z.of_nat j)).
Proof.
  apply (request_iter_components
           (mkRequest 0 "loglikelihood" [PyStr "ctx"; PyStr " yes"] None)
           1%nat 2%Z).
  reflexivity.
Defined.

(** X8. A multiple-choice task constructs one request per choice, in the
    order of the choices, and never fails: each is a [loglikelihood] request
    on the context and the choice after a space, specialised to the
    component 0; its arguments are strings, so the executor can hash it.
    Two objects are allocated per choice. *)
Theorem construct_requests_per_choice (d : MultipleChoiceTask.doc)
    (ctx : string) (next : nat) :
  ∃ lls,
    MultipleChoiceTask.construct_requests d ctx next
      = (Ok lls, (next + 2 * length (MultipleChoiceTask.choices d))%nat)
    ∧ length lls = length (MultipleChoiceTask.choices d)
    ∧ (∀ (i : nat) c, MultipleChoiceTask.choices d !! i = Some c →
         lls !! i = Some (mkRequest (next + 2 * i + 1) "loglikelihood"
                            [PyStr ctx; PyStr (" " +:+ c)] (Some 0%Z)))
    ∧ all_hashable (map args lls).
Proof.
  unfold MultipleChoiceTask.construct_requests.
  generalize (MultipleChoiceTask.choices d). clear d.
  intros cs. revert next. induction cs as [|c cs IH]; intros next.
  - exists []. cbn. rewrite Nat.add_0_r. repeat split; [done|constructor].
  - cbn [MultipleChoiceTask.construct_requests_from].
    unfold RequestFactory.__getattr__, RequestClass.__getitem__.
    rewrite (init_registered _ _ _ _ _ loglikelihood_registered).
    cbn [type args].
    rewrite (init_registered _ _ _ _ _ loglikelihood_registered).
    destruct (IH (S (S next))) as (lls & -> & Hlen & Hlls & Hh).
    eexists. split; [f_equal; cbn [length]; lia|].
    split; [cbn; by rewrite Hlen|]. split.
    + intros [|i] c' Hi; cbn in Hi.
      * injection Hi as <-. cbn. do 2 f_equal. lia.
      * etrans; [exact (Hlls i c' Hi)|]. do 2 f_equal. lia.
    + cbn [map args]. constructor; [done|exact Hh].
Qed.

(** * Scoring *)

Section Ordered.

(** The results are compared by [gtb], a strict order in which being not
    greater is transitive: the order of floats without NaN, of integers. *)
Context {T : Type} (gtb : T → T → bool).
Hypothesis gtb_irrefl : ∀ x, gtb x x = false.
Hypothesis gtb_trans : ∀ x y z, gtb x y = true → gtb y z = true → gtb x z = true.
Hypothesis gtb_above : ∀ x y z, gtb x y = true → gtb z y = false → gtb x z = true.

Lemma argmax_from_spec (l pre : list T) (best : T) (besti : nat) :
  pre !! besti = Some best →
  (∀ x, x ∈ pre → gtb x best = false) →
  (∀ (j : nat) x, (j < besti)%nat → pre !! j = Some x → gtb best x = true) →
  ∃ b,
    (pre ++ l) !! argmax_from gtb best besti (length pre) l = Some b
    ∧ (∀ x, x ∈ pre ++ l → gtb x b = false)
    ∧ (∀ (j : nat) x, (j < argmax_from gtb best besti (length pre) l)%nat →
         (pre ++ l) !! j = Some x → gtb b x = true).
Proof.
  revert pre best besti. induction l as [|x l IH]; intros pre best besti Hb Hmax Hfirst.
  - cbn. rewrite app_nil_r. eauto.
  - cbn [argmax_from].
    replace (pre ++ x :: l) with ((pre ++ [x]) ++ l) by (by rewrite <- app_assoc).
    replace (S (length pre)) with (length (pre ++ [x]))
      by (rewrite length_app; cbn; lia).
    destruct (gtb x best) eqn:Hx.
    + apply IH.
      * by rewrite lookup_app_r, Nat.sub_diag.
      * intros y [Hy|Hy]%elem_of_app.
        -- destruct (gtb y x) eqn:Hyx; [|done].
           specialize (Hmax y Hy).
           by rewrite (gtb_trans y x best Hyx Hx) in Hmax.
        -- apply list_elem_of_singleton in Hy as ->. apply gtb_irrefl.
      * intros j y Hj Hy. rewrite lookup_app_l in Hy by done.
        apply (gtb_above x best y Hx). apply Hmax.
        by eapply list_elem_of_lookup_2.
    + apply IH.
      * apply lookup_app_l_Some. done.
      * intros y [Hy|Hy]%elem_of_app; [by apply Hmax|].
        by apply list_elem_of_singleton in Hy as ->.
      * intros j y Hj Hy. apply (Hfirst j y Hj).
        apply lookup_lt_Some in Hb.
        rewrite lookup_app_l in Hy by lia. done.
Qed.

Lemma np_argmax_spec (l : list T) :
  l ≠ [] →
  ∃ (i : nat) b,
    np_argmax gtb l = Ok i
    ∧ l !! i = Some b
    ∧ (∀ x, x ∈ l → gtb x b = false)
    ∧ (∀ (j : nat) x, (j < i)%nat → l !! j = Some x → gtb b x = true).
Proof.
  destruct l as [|x l]; [done|]. intros _.
  destruct (argmax_from_spec l [x] x 0) as (b & H1 & H2 & H3).
  - done.
  - intros y Hy. apply list_elem_of_singleton in Hy as ->. apply gtb_irrefl.
  - intros j y Hj. lia.
  - exists (argmax_from gtb x 0 1 l), b. done.
Qed.

Lemma max_from_spec (l : list T) (best : T) (seen : list T) :
  best ∈ seen →
  (∀ x, x ∈ seen → gtb x best = false) →
  max_from gtb best l ∈ seen ++ l
  ∧ ∀ x, x ∈ seen ++ l → gtb x (max_from gtb best l) = false.
Proof.
  revert best seen. induction l as [|x l IH]; intros best seen Hin Hmax.
  - cbn. rewrite app_nil_r. done.
  - cbn [max_from].
    replace (seen ++ x :: l) with ((seen ++ [x]) ++ l) by (by rewrite <- app_assoc).
    apply IH.
    + destruct (gtb x best); apply elem_of_app; [right; left|by left].
    + intros y [Hy|Hy]%elem_of_app.
      * destruct (gtb x best) eqn:Hx; [|by apply Hmax].
        destruct (gtb y x) eqn:Hyx; [|done].
        specialize (Hmax y Hy).
        by rewrite (gtb_trans y x best Hyx Hx) in Hmax.
      * apply list_elem_of_singleton in Hy as ->.
        destruct (gtb x best) eqn:Hx; [apply gtb_irrefl|done].
Qed.

(** X9. [process_results] of a multiple-choice task fails with
    [ValueError] on an empty list of results; otherwise the accuracy is
    [1.] when [gold] is the position of the first of the greatest results
    and [0.] in every other case. *)
Theorem process_results_acc (d : MultipleChoiceTask.doc) (results : list T) :
  (results = [] →
   MultipleChoiceTask.process_results gtb d results = Raise ValueError)
  ∧ (results ≠ [] →
     ∃ (i : nat) best,
       results !! i = Some best
       ∧ (∀ x, x ∈ results → gtb x best = false)
       ∧ (∀ (j : nat) x, (j < i)%nat → results !! j = Some x → gtb best x = true)
       ∧ MultipleChoiceTask.process_results gtb d results
         = Ok {[ "acc" := if (Z.of_nat i =? MultipleChoiceTask.gold d)%Z
                          then float_one else float_zero ]}).
Proof.
  split; [by intros ->|]. intros Hne.
  destruct (np_argmax_spec results Hne) as (i & b & Hi & H1 & H2 & H3).
  exists i, b. unfold MultipleChoiceTask.process_results. rewrite Hi. done.
Qed.

(** X10. [metric_max_over_ground_truths] fails with [ValueError] when there
    is no ground truth; otherwise it returns the score of one of the ground
    truths, and no ground truth has a greater score. *)
Theorem metric_max_is_greatest {P G : Type} (metric_fn : P → G → T)
    (prediction : P) (ground_truths : list G) :
  (ground_truths = [] →
   metric_max_over_ground_truths gtb metric_fn prediction ground_truths
   = Raise ValueError)
  ∧ (ground_truths ≠ [] →
     ∃ g,
       g ∈ ground_truths
       ∧ metric_max_over_ground_truths gtb metric_fn prediction ground_truths
         = Ok (metric_fn prediction g)
       ∧ ∀ g', g' ∈ ground_truths →
           gtb (metric_fn prediction g') (metric_fn prediction g) = false).
Proof.
  split; [by intros ->|]. intros Hne.
  destruct ground_truths as [|g0 gs]; [done|].
  unfold metric_max_over_ground_truths. cbn [map py_max].
  destruct (max_from_spec (map (metric_fn prediction) gs) (metric_fn prediction g0)
              [metric_fn prediction g0]) as [Hin Hmax].
  - left.
  - intros y Hy. apply list_elem_of_singleton in Hy as ->. apply gtb_irrefl.
  - change ([metric_fn prediction g0] ++ map (metric_fn prediction) gs)
      with (map (metric_fn prediction) (g0 :: gs)) in *.
    apply list_elem_of_fmap in Hin as (g & Hg & Hgin).
    exists g. split; [done|]. split; [by rewrite Hg|].
    intros g' Hg'. rewrite <- Hg. apply Hmax. by apply list_elem_of_fmap_2.
Qed.

End Ordered.

Lemma process_results_acc_witness :
  (@nil Z = [] →
   MultipleChoiceTask.process_results Z.gtb
     (MultipleChoiceTask.Doc ["yes"; "no"; "maybe"] 1) [] = Raise ValueError)
  ∧ ([(-7)%Z; (-2)%Z; (-2)%Z] ≠ [] →
     ∃ (i : nat) best,
       [(-7)%Z; (-2)%Z; (-2)%Z] !! i = Some best
       ∧ (∀ x, x ∈ [(-7)%Z; (-2)%Z; (-2)%Z] → Z.gtb x best = false)
       ∧ (∀ (j : nat) x, (j < i)%nat →
            [(-7)%Z; (-2)%Z; (-2)%Z] !! j = Some x → Z.gtb best x = true)
       ∧ MultipleChoiceTask.process_results Z.gtb
           (MultipleChoiceTask.Doc ["yes"; "no"; "maybe"] 1)
           [(-7)%Z; (-2)%Z; (-2)%Z]
         = Ok {[ "acc" := if (Z.of_nat i =? 1)%Z then float_one else float_zero ]}).
Proof.
  split.
  - intros _. reflexivity.
  - apply (process_results_acc Z.gtb).
    + intros x. rewrite Z.gtb_ltb. apply Z.ltb_irrefl.
    + intros x y z. rewrite !Z.gtb_ltb, !Z.ltb_lt. lia.
    + intros x y z. rewrite !Z.gtb_ltb, !Z.ltb_lt, Z.ltb_ge. lia.
Defined.

Lemma metric_max_is_greatest_witness :
  ([3%Z; 9%Z; 4%Z] = [] →
   metric_max_over_ground_truths Z.gtb (fun p g => (p * g)%Z) 2%Z [3%Z; 9%Z; 4%Z]
   = Raise ValueError)
  ∧ ([3%Z; 9%Z; 4%Z] ≠ [] →
     ∃ g,
       g ∈ [3%Z; 9%Z; 4%Z]
       ∧ metric_max_over_ground_truths Z.gtb (fun p g => (p * g)%Z) 2%Z
           [3%Z; 9%Z; 4%Z]
         = Ok (2 * g)%Z
       ∧ ∀ g', g' ∈ [3%Z; 9%Z; 4%Z] → Z.gtb (2 * g') (2 * g) = false).
Proof.
  apply (metric_max_is_greatest Z.gtb).
  - intros x. rewrite Z.gtb_ltb. apply Z.ltb_irrefl.
  - intros x y z. rewrite !Z.gtb_ltb, !Z.ltb_lt. lia.
Defined.

(** ** Indexing by [gold], and the median *)

Lemma list_getitem_nonneg {A} (l : list A) (i : Z) :
  (0 ≤ i < Z.of_nat (length l))%Z →
  ∃ x, l !! Z.to_nat i = Some x ∧ list_getitem l i = Ok x.
Proof.
  intros H. unfold list_getitem. cbv zeta.
  destruct (i <? 0)%Z eqn:Hneg; [apply Z.ltb_lt in Hneg; lia|].
  assert ((0 <=? i)%Z && (i <? Z.of_nat (length l))%Z = true) as ->.
  { apply andb_true_intro. split; [apply Z.leb_le|apply Z.ltb_lt]; lia. }
  destruct (lookup_lt_is_Some_2 l (Z.to_nat i)) as [x Hx]; [lia|].
  exists x. by rewrite Hx.
Qed.

Lemma list_getitem_negative {A} (l : list A) (i : Z) :
  (- Z.of_nat (length l) ≤ i < 0)%Z →
  ∃ x, l !! Z.to_nat (i + Z.of_nat (length l)) = Some x ∧ list_getitem l i = Ok x.
Proof.
  intros H. unfold list_getitem. cbv zeta.
  destruct (i <? 0)%Z eqn:Hneg; [|apply Z.ltb_ge in Hneg; lia].
  assert ((0 <=? i + Z.of_nat (length l))%Z
          && (i + Z.of_nat (length l) <? Z.of_nat (length l))%Z = true) as ->.
  { apply andb_true_intro. split; [apply Z.leb_le|apply Z.ltb_lt]; lia. }
  destruct (lookup_lt_is_Some_2 l (Z.to_nat (i + Z.of_nat (length l))))
    as [x Hx]; [lia|].
  exists x. by rewrite Hx.
Qed.

Lemma list_getitem_out_of_range {A} (l : list A) (i : Z) :
  (i < - Z.of_nat (length l) ∨ Z.of_nat (length l) ≤ i)%Z →
  list_getitem l i = Raise IndexError.
Proof.
  intros H. unfold list_getitem. cbv zeta.
  destruct (i <? 0)%Z eqn:Hneg.
  - apply Z.ltb_lt in Hneg.
    assert ((0 <=? i + Z.of_nat (length l))%Z = false) as ->; [|done].
    apply Z.leb_gt. lia.
  - apply Z.ltb_ge in Hneg.
    assert ((i <? Z.of_nat (length l))%Z = false) as ->.
    { apply Z.ltb_ge. lia. }
    by rewrite andb_false_r.
Qed.

(** X11. The target of a multiple-choice document is the choice at [gold]
    after a space. [gold] may be negative and then counts from the last
    choice, but such a document never scores: the accuracy is [0.] for
    every list of results. A [gold] outside the choices is an
    [IndexError]. *)
Theorem doc_to_target_indexing (d : MultipleChoiceTask.doc) :
  let n := Z.of_nat (length (MultipleChoiceTask.choices d)) in
  let g := MultipleChoiceTask.gold d in
  ((0 ≤ g < n)%Z →
   ∃ c, MultipleChoiceTask.choices d !! Z.to_nat g = Some c
        ∧ MultipleChoiceTask.doc_to_target d = Ok (" " +:+ c))
  ∧ ((- n ≤ g < 0)%Z →
     ∃ c, MultipleChoiceTask.choices d !! Z.to_nat (g + n) = Some c
          ∧ MultipleChoiceTask.doc_to_target d = Ok (" " +:+ c)
          ∧ ∀ (T : Type) (gtb : T → T → bool) (results : list T),
              results ≠ [] →
              MultipleChoiceTask.process_results gtb d results
              = Ok {[ "acc" := float_zero ]})
  ∧ ((g < - n ∨ n ≤ g)%Z →
     MultipleChoiceTask.doc_to_target d = Raise IndexError).
Proof.
  cbv zeta. unfold MultipleChoiceTask.doc_to_target. split; [|split].
  - intros H. destruct (list_getitem_nonneg _ _ H) as (c & Hc & ->). eauto.
  - intros H. destruct (list_getitem_negative _ _ H) as (c & Hc & ->).
    exists c. split; [done|]. split; [done|].
    intros T gtb [|x results] Hne; [done|].
    unfold MultipleChoiceTask.process_results. cbn [np_argmax].
    assert ((Z.of_nat (argmax_from gtb x 0 1 results)
             =? MultipleChoiceTask.gold d)%Z = false) as ->; [|done].
    apply Z.eqb_neq. lia.
  - intros H. by rewrite list_getitem_out_of_range.
Qed.

Lemma doc_to_target_indexing_witness :
  MultipleChoiceTask.doc_to_target (MultipleChoiceTask.Doc ["yes"; "no"] 0)
    = Ok " yes"
  ∧ MultipleChoiceTask.doc_to_target (MultipleChoiceTask.Doc ["yes"; "no"] (-1))
    = Ok " no"
  ∧ MultipleChoiceTask.process_results Z.gtb
      (MultipleChoiceTask.Doc ["yes"; "no"] (-1)) [(-9)%Z; (-1)%Z]
    = Ok {[ "acc" := float_zero ]}
  ∧ MultipleChoiceTask.doc_to_target (MultipleChoiceTask.Doc ["yes"; "no"] 2)
    = Raise IndexError.
Proof.
  split; [|split; [|split]].
  - destruct (doc_to_target_indexing (MultipleChoiceTask.Doc ["yes"; "no"] 0))
      as (H & _ & _).
    destruct H as (c & Hc & ->); [cbn; lia|]. by injection Hc as <-.
  - destruct (doc_to_target_indexing (MultipleChoiceTask.Doc ["yes"; "no"] (-1)))
      as (_ & H & _).
    destruct H as (c & Hc & -> & _); [cbn; lia|]. by injection Hc as <-.
  - destruct (doc_to_target_indexing (MultipleChoiceTask.Doc ["yes"; "no"] (-1)))
      as (_ & H & _).
    destruct H as (c & _ & _ & H); [cbn; lia|]. by apply H.
  - destruct (doc_to_target_indexing (MultipleChoiceTask.Doc ["yes"; "no"] 2))
      as (_ & _ & H).
    apply H. cbn. lia.
Defined.

Lemma sorted_middle (l1 l2 : list Z) (m : Z) :
  StronglySorted Z.le (l1 ++ m :: l2) →
  Forall (fun x => (x ≤ m)%Z) l1 ∧ Forall (fun x => (m ≤ x)%Z) l2.
Proof.
  induction l1 as [|x l1 IH]; cbn; intros H.
  - split; [constructor|]. by inversion H.
  - inversion H as [|? ? Hs Hall]; subst. destruct (IH Hs) as [H1 H2].
    split; [|done]. constructor; [|done].
    rewrite Forall_app in Hall. destruct Hall as [_ Hall]. by inversion Hall.
Qed.

Lemma filter_none_length (f : Z → bool) (l : list Z) :
  Forall (fun x => f x = false) l → List.filter f l = [].
Proof. induction 1 as [|x l Hx _ IH]; [done|]. cbn. by rewrite Hx. Qed.

Lemma filter_length_le (f : Z → bool) (l : list Z) :
  (length (List.filter f l) ≤ length l)%nat.
Proof.
  induction l as [|x l IH]; [done|]. cbn. destruct (f x); cbn; lia.
Qed.

Lemma filter_around_middle (l1 l2 : list Z) (m : Z) :
  Forall (fun x => (x ≤ m)%Z) l1 → Forall (fun x => (m ≤ x)%Z) l2 →
  (length (List.filter (fun x => (x <? m)%Z) (l1 ++ m :: l2)) ≤ length l1)%nat
  ∧ (length (List.filter (fun x => (m <? x)%Z) (l1 ++ m :: l2)) ≤ length l2)%nat.
Proof.
  intros Hlow Hhigh. rewrite !List.filter_app. cbn [List.filter].
  rewrite Z.ltb_irrefl, !length_app. split.
  - rewrite (filter_none_length _ l2).
    + pose proof (filter_length_le (fun x => (x <? m)%Z) l1). cbn. lia.
    + eapply Forall_impl; [exact Hhigh|]. intros x Hx. apply Z.ltb_ge. exact Hx.
  - rewrite (filter_none_length _ l1).
    + pose proof (filter_length_le (fun x => (m <? x)%Z) l2). cbn. lia.
    + eapply Forall_impl; [exact Hlow|]. intros x Hx. apply Z.ltb_ge. exact Hx.
Qed.

(** X12. [median] reads the item in the middle of the list as it is given,
    without sorting it; on the empty list it raises [IndexError]. When the
    list is sorted, the item is a median: at most half of the items are
    smaller and at most half are greater. *)
Theorem median_of_sorted (arr : list Z) :
  (arr = [] → median arr = Raise IndexError)
  ∧ (arr ≠ [] →
     ∃ m, arr !! (length arr / 2)%nat = Some m
          ∧ median arr = Ok m
          ∧ (Sorted Z.le arr →
             (2 * length (List.filter (fun x => (x <? m)%Z) arr) ≤ length arr)%nat
             ∧ (2 * length (List.filter (fun x => (m <? x)%Z) arr) ≤ length arr)%nat)).
Proof.
  split; [by intros ->|]. intros Hne.
  assert (0 < length arr)%nat as Hpos by (destruct arr; [done|cbn; lia]).
  assert (Z.to_nat (Z.of_nat (length arr) / 2) = (length arr / 2)%nat) as Hh.
  { rewrite <- (Nat2Z.id (length arr / 2)). f_equal.
    by rewrite Nat2Z.inj_div. }
  destruct (list_getitem_nonneg arr (Z.of_nat (length arr) / 2)) as (m & Hm & Hget).
  { split; [apply Z.div_pos; lia|apply Z.div_lt; lia]. }
  rewrite Hh in Hm. exists m. split; [done|]. split; [exact Hget|].
  intros Hs. apply Sorted_StronglySorted in Hs; [|intros x y z; lia].
  pose proof (take_drop_middle arr _ m Hm) as Harr.
  set (h := (length arr / 2)%nat) in *.
  rewrite <- Harr in Hs. apply sorted_middle in Hs as [Hlow Hhigh].
  assert (length (take h arr) = h) as Htake.
  { rewrite length_take. apply Nat.min_l. unfold h. apply Nat.Div0.div_le_upper_bound. lia. }
  assert (length (drop (S h) arr) = (length arr - S h)%nat) as Hdrop
    by apply length_drop.
  assert (h * 2 ≤ length arr < S h * 2)%nat as Hdiv.
  { unfold h. pose proof (Nat.div_mod_eq (length arr) 2) as E.
    pose proof (Nat.mod_upper_bound (length arr) 2). lia. }
  pose proof (filter_around_middle (take h arr) (drop (S h) arr) m Hlow Hhigh)
    as [Hc1 Hc2].
  rewrite Harr in Hc1, Hc2. lia.
Qed.

Lemma median_of_sorted_witness :
  median [3%Z; 1%Z; 2%Z] = Ok 1%Z
  ∧ median [1%Z; 2%Z; 3%Z; 4%Z] = Ok 3%Z
  ∧ (2 * length (List.filter (fun x => (x <? 3)%Z) [1%Z; 2%Z; 3%Z; 4%Z]) ≤ 4)%nat
  ∧ (2 * length (List.filter (fun x => (3 <? x)%Z) [1%Z; 2%Z; 3%Z; 4%Z]) ≤ 4)%nat.
Proof.
  split.
  - destruct (median_of_sorted [3%Z; 1%Z; 2%Z]) as [_ H].
    destruct H as (m & Hm & -> & _); [done|]. by injection Hm as <-.
  - destruct (median_of_sorted [1%Z; 2%Z; 3%Z; 4%Z]) as [_ H].
    destruct H as (m & Hm & -> & Hs); [done|]. injection Hm as <-.
    split; [done|]. apply Hs.
    repeat (constructor; try lia).
Defined.

(** ** [acc_all] *)

Lemma scoring_append_keys (d : list (Z * list bool)) (q : Z) (x : bool) :
  (scoring_append d q x).*1 = if decide (q ∈ d.*1) then d.*1 else d.*1 ++ [q].
Proof.
  induction d as [|[k xs] d IH]; [done|]. cbn [scoring_append].
  destruct (Z.eqb_spec k q) as [->|Hne].
  - cbn. rewrite decide_True; [done|left].
  - cbn [fmap list_fmap fst]. rewrite IH.
    destruct (decide (q ∈ d.*1)) as [Hin|Hin].
    + rewrite decide_True; [done|by right].
    + rewrite decide_False; [done|].
      intros [Heq|?]%elem_of_cons; [cbn in Heq; congruence|done].
Qed.

(** Appending an answer to the dictionary, seen on what every key holds. *)
Lemma scoring_append_values (d : list (Z * list bool)) (q : Z) (x : bool)
    (f : Z → list bool) :
  NoDup d.*1 →
  (q ∉ d.*1 → f q = []) →
  Forall (fun kv => snd kv = f (fst kv)) d →
  Forall (fun kv => snd kv = f (fst kv) ++ (if (fst kv =? q)%Z then [x] else []))
         (scoring_append d q x).
Proof.
  induction d as [|[k xs] d IH]; intros Hnd Hq Hd.
  - cbn. constructor; [|constructor]. cbn. rewrite Z.eqb_refl, Hq; [done|].
    by intros ?%elem_of_nil.
  - apply Forall_cons in Hd as [Hk Hd]. cbn in Hk. cbn in Hnd.
    apply NoDup_cons in Hnd as [Hkd Hnd]. cbn [scoring_append].
    destruct (Z.eqb_spec k q) as [->|Hne].
    + constructor.
      * cbn. by rewrite Z.eqb_refl, Hk.
      * rewrite Forall_forall in Hd. apply Forall_forall. intros [k' xs'] Hin.
        pose proof (Hd _ Hin) as Hx. cbn in Hx. cbn. rewrite <- Hx.
        destruct (Z.eqb_spec k' q) as [->|_]; [|by rewrite app_nil_r].
        exfalso. apply Hkd. apply list_elem_of_fmap. by exists (q, xs').
    + constructor.
      * cbn. destruct (Z.eqb_spec k q); [done|]. by rewrite app_nil_r.
      * apply IH; [done| |done]. intros Hnot. apply Hq.
        intros [Heq|?]%elem_of_cons; [cbn in Heq; congruence|done].
Qed.

Lemma answers_to_snoc (items : list (bool * question_doc)) (item : bool * question_doc)
    (q : Z) :
  answers_to (items ++ [item]) q
  = answers_to items q
    ++ (if (q =? question (snd item))%Z then [answer_correct item] else []).
Proof.
  unfold answers_to. rewrite List.filter_app, map_app. cbn.
  rewrite (Z.eqb_sym q). by destruct (question (snd item) =? q)%Z.
Qed.

Lemma answers_to_unknown (items : list (bool * question_doc)) (q : Z) :
  q ∉ map (fun item => question (snd item)) items → answers_to items q = [].
Proof.
  unfold answers_to. induction items as [|item items IH]; [done|].
  intros Hq. cbn. destruct (Z.eqb_spec (question (snd item)) q) as [<-|_].
  - exfalso. apply Hq. left.
  - apply IH. intros Hin. apply Hq. by right.
Qed.

(** The dictionary after the loop: its keys are the questions of the items,
    each once, and every key holds the answers to its question. *)
Lemma question_scoring_dict_spec (items : list (bool * question_doc)) :
  NoDup (question_scoring_dict items).*1
  ∧ (∀ q, q ∈ (question_scoring_dict items).*1
          ↔ q ∈ map (fun item => question (snd item)) items)
  ∧ Forall (fun kv => snd kv = answers_to items (fst kv)) (question_scoring_dict items).
Proof.
  unfold question_scoring_dict.
  induction items as [|item items (Hnd & Hkeys & Hvals)] using rev_ind.
  - cbn. split; [constructor|]. split; [done|constructor].
  - rewrite fold_left_app. cbn [fold_left].
    set (d := fold_left _ items []) in *.
    split; [|split].
    + rewrite scoring_append_keys. case_decide; [done|].
      apply NoDup_app. split; [done|]. split; [|apply NoDup_singleton].
      intros q Hq Hq'%list_elem_of_singleton. by subst.
    + intros q. rewrite scoring_append_keys, map_app. cbn [map].
      rewrite elem_of_app, list_elem_of_singleton, <- Hkeys.
      case_decide as Hin.
      * split; [by left|]. intros [? | ->]; done.
      * by rewrite elem_of_app, list_elem_of_singleton.
    + eapply Forall_impl.
      * apply (scoring_append_values d _ _ (answers_to items)); [done| |done].
        intros Hnot. apply answers_to_unknown. by rewrite <- Hkeys.
      * intros [k xs] Hk. cbn in *. by rewrite answers_to_snoc, Hk.
Qed.

(** X13. [acc_all] raises [IndexError] on no item. Otherwise it is the mean
    of one score per distinct question of the items, and the score of a
    question is 1 when every answer to it was labeled correctly and 0 as
    soon as one was not. *)
Theorem acc_all_scores_questions {F : Type} (np_mean : list Z → F)
    (items : list (bool * question_doc)) :
  (items = [] → acc_all np_mean items = Raise IndexError)
  ∧ (items ≠ [] →
     ∃ qs,
       NoDup qs
       ∧ (∀ q, q ∈ qs ↔ q ∈ map (fun item => question (snd item)) items)
       ∧ acc_all np_mean items
         = Ok (np_mean (map (fun q => if forallb id (answers_to items q)
                                      then 1%Z else 0%Z) qs))).
Proof.
  split; [by intros ->|]. intros Hne.
  destruct (question_scoring_dict_spec items) as (Hnd & Hkeys & Hvals).
  exists (question_scoring_dict items).*1. split; [done|]. split; [done|].
  destruct items as [|item items]; [done|]. unfold acc_all. do 2 f_equal.
  generalize dependent (question_scoring_dict (item :: items)).
  clear. intros d _ _ Hvals. induction Hvals as [|[k xs] d Hk _ IH]; [done|].
  cbn in *. by rewrite Hk, IH.
Qed.

Lemma acc_all_scores_questions_witness :
  acc_all (fun l => l)
    [(true, QuestionDoc 7 1); (false, QuestionDoc 8 1); (false, QuestionDoc 7 0)]
  = Ok [1%Z; 0%Z]
  ∧ acc_all (fun l : list Z => l) [] = Raise IndexError.
Proof.
  split.
  - destruct (acc_all_scores_questions (fun l : list Z => l)
                [(true, QuestionDoc 7 1); (false, QuestionDoc 8 1);
                 (false, QuestionDoc 7 0)]) as [_ H].
    destruct H as (qs & _ & _ & H); [done|]. reflexivity.
  - apply (acc_all_scores_questions (fun l : list Z => l) []). reflexivity.
Defined.

(** ** Few-shot contexts *)







(** The contexts that [echo_task] builds: zero-shot with its description,
    two-shot without, and a sampling that fails. *)
Example fewshot_context_texts :
  fst (Task.fewshot_context echo_task "q9" 0 true (Task.__init__ 0%nat))
    = Ok ("Answer." +:+ nl +:+ "===" +:+ nl +:+ nl +:+ "q9?")
  ∧ fst (Task.fewshot_context echo_task "q9" 2 false (Task.__init__ 0%nat))
    = Ok ("q1? yes" +:+ nl +:+ nl +:+ "q2? yes" +:+ nl +:+ nl +:+ "q9?")
  ∧ fst (Task.fewshot_context echo_task "q9" 7 false (Task.__init__ 0%nat))
    = Raise ValueError.
Proof. repeat split; vm_compute; reflexivity. Qed.

(** * Where the stored values come from *)

Section ExecutorProvenance.

Context {B : Type} (model : backend B).

(** X15. Whatever is in the store after an execution was there before or
    was returned by the model in this execution, and is stored under the
    key of a miss of the batch: the executor writes nothing of its own. *)
Theorem stored_values_come_from_model (attr : string)
    (requests : list (list pyobj)) (w : state B) (k : string) (v : pyobj) :
  dbdict (snd (fn model attr requests w)) !! k = Some v →
  dbdict w !! k = Some v
  ∨ ∃ rs b' rq,
      model attr (misses (dbdict w) attr requests) (lm w) = (Ok rs, b')
      ∧ v ∈ rs
      ∧ rq ∈ misses (dbdict w) attr requests
      ∧ k = key attr rq.
Proof.
  destruct (fn_cases model attr requests w)
    as [[-> _]|(Hh & Hn & b' & [(e & _ & ->)|(rs & Hm & ->)])];
    cbn [snd dbdict]; intros Hk; [by left..|].
  destruct (dbdict w !! k) as [v0|] eqn:Hold.
  - left. f_equal.
    apply write_all_lookup_inv in Hk as Hk'.
    assert (write_all attr (zip (misses (dbdict w) attr requests) rs) (dbdict w) !! k
            = Some v0) as Hkept.
    { rewrite write_all_lookup_ne; [done|].
      apply Forall_forall. intros p Hp Heq.
      apply zip_fst_elem, misses_are_absent in Hp. rewrite Heq in Hp. congruence. }
    congruence.
  - right. exists rs, b'.
    assert (k ∈ dom (write_all attr (zip (misses (dbdict w) attr requests) rs)
                      (dbdict w))) as Hdom by (apply elem_of_dom; eauto).
    rewrite write_all_dom in Hdom. apply elem_of_union in Hdom as [Hdom|Hdom].
    { apply elem_of_dom in Hdom as [? Hdom]. congruence. }
    apply elem_of_list_to_set, list_elem_of_fmap in Hdom as (p & -> & Hp).
    exists (fst p). split; [done|].
    apply write_all_lookup_inv in Hk as [Hk|Hk]; [congruence|].
    rewrite zip_snd_take in Hk. apply elem_of_take in Hk as (j & Hj & _).
    split; [by eapply list_elem_of_lookup_2|].
    split; [by eapply zip_fst_elem|done].
Qed.

End ExecutorProvenance.

Lemma stored_values_come_from_model_witness :
  dbdict seeded !! key "loglikelihood" [PyStr "a"] = Some (PyStr "r")
  ∨ ∃ rs b' rq,
      constant_model (PyStr "r") "loglikelihood"
        (misses (dbdict seeded) "loglikelihood" [[PyStr "a"]; [PyStr "b"]])
        (lm seeded) = (Ok rs, b')
      ∧ PyStr "r" ∈ rs
      ∧ rq ∈ misses (dbdict seeded) "loglikelihood" [[PyStr "a"]; [PyStr "b"]]
      ∧ key "loglikelihood" [PyStr "a"] = key "loglikelihood" rq.
Proof.
  apply (stored_values_come_from_model (constant_model (PyStr "r"))
           "loglikelihood" [[PyStr "a"]; [PyStr "b"]] seeded).
  vm_compute. reflexivity.
Defined.
